(** * apacomp: the listing scraper and its store (listing.py)

    A shallow embedding of [listing.py] and the properties its
    specification states about it.

    Modelling conventions.
    - A Python [str] is the list of its code points ([N]).
    - A Python [float] is a real number ([R]): arithmetic is exact and
      [sin], [cos], [sqrt], [atan2] are the real functions.  Rounding
      errors, infinities and NaN are outside this model.  Two things
      follow.  [float] of a string of digits is its exact value, where
      the program overflows to infinity on a very long one.  And in
      [haversine] the arguments of the square roots lie in [[0, 1]],
      where in double arithmetic rounding can push [1 - a] below zero
      for two points that are nearly antipodes, and the program then
      raises [ValueError].  Lemmas that rest on this say that they are
      about the real model; the statements recorded for the program
      are conditional on the computation returning, or are about
      points where the two arithmetics agree.
    - A raised exception is a value of [outcome]; the message is the
      text of [str(e)] where the program uses that text (the detail of
      a failed scrape).  A validation error carries the name of the
      field only.
    - What the program obtains from outside (the page behind a URL as
      BeautifulSoup answers queries on it, the generated UUID, the
      Unicode table of decimal digits) is an [Env].
    - The persisted file and the observable effects (HTTP fetches and
      file writes) make up a [World] that is threaded through the
      handlers. *)

From Stdlib Require Import List NArith ZArith Bool.
From Stdlib Require String Ascii.
Import String.StringSyntax.
Delimit Scope string_scope with string.
From Stdlib Require Import Reals Lra Lia.
Import ListNotations.

(** ** Python strings *)

Module Py.

Definition str := list N.

(** An ASCII literal of the source as a [str]. *)
Definition lit (s : String.string) : str :=
  map Ascii.N_of_ascii (String.list_ascii_of_string s).
Arguments lit s%_string.

(** [a == b] *)
Fixpoint str_eqb (a b : str) : bool :=
  match a, b with
  | [], [] => true
  | x :: a', y :: b' => (x =? y)%N && str_eqb a' b'
  | _, _ => false
  end.

(** [str.isspace] on one code point (the characters [str.strip()] removes). *)
Definition isspace (c : N) : bool :=
  ((9 <=? c) && (c <=? 13) || (28 <=? c) && (c <=? 32)
   || (c =? 133) || (c =? 160) || (c =? 5760)
   || (8192 <=? c) && (c <=? 8202)
   || (c =? 8232) || (c =? 8233) || (c =? 8239) || (c =? 8287)
   || (c =? 12288))%N.

Fixpoint lstrip (s : str) : str :=
  match s with
  | [] => []
  | c :: s' => if isspace c then lstrip s' else s
  end.

Definition rstrip (s : str) : str := rev (lstrip (rev s)).

(** [s.strip()] *)
Definition strip (s : str) : str := rstrip (lstrip s).

(** [s.startswith(p)] *)
Fixpoint startswith (p s : str) : bool :=
  match p, s with
  | [], _ => true
  | _ :: _, [] => false
  | a :: p', b :: s' => (a =? b)%N && startswith p' s'
  end.

(** [p in s] *)
Fixpoint contains (p s : str) : bool :=
  startswith p s ||
  match s with
  | [] => false
  | _ :: s' => contains p s'
  end.

(** [s.split(d)] for a separator [d] of one code point. *)
Fixpoint split (d : N) (s : str) : list str :=
  match s with
  | [] => [[]]
  | c :: s' =>
      if (c =? d)%N then [] :: split d s'
      else match split d s' with
           | [] => [[c]]
           | p :: ps => (c :: p) :: ps
           end
  end.

(** [sep.join(l)] *)
Fixpoint join (sep : str) (l : list str) : str :=
  match l with
  | [] => []
  | [x] => x
  | x :: l' => x ++ sep ++ join sep l'
  end.

(** A computation that returns a value or raises an exception [E]. *)
Inductive outcome (E A : Type) : Type :=
| Ok (a : A)
| Raise (e : E).
Arguments Ok {E A} a.
Arguments Raise {E A} e.

Definition bind {E A B} (m : outcome E A) (k : A -> outcome E B) : outcome E B :=
  match m with
  | Ok a => k a
  | Raise e => Raise e
  end.

Fixpoint mapM {E A B} (f : A -> outcome E B) (l : list A) : outcome E (list B) :=
  match l with
  | [] => Ok []
  | x :: l' => bind (f x) (fun y => bind (mapM f l') (fun ys => Ok (y :: ys)))
  end.

(** *** [re] and [float]: the Unicode classes they use *)

(** [decimal udb c]: the digit value of a code point with the Unicode
    property Decimal_Digit, which is what [\d] matches and what
    [float] converts.  ASCII is fixed; beyond ASCII the table [udb] of
    the interpreter decides. *)
Definition decimal (udb : N -> option N) (c : N) : option N :=
  if (c <? 128)%N
  then if ((48 <=? c) && (c <=? 57))%N then Some (c - 48)%N else None
  else udb c.

(** The character class [[\d\.]] of the two patterns. *)
Definition digit_or_dot (udb : N -> option N) (c : N) : bool :=
  match decimal udb c with
  | Some _ => true
  | None => (c =? 46)%N
  end.

(** The longest prefix whose characters satisfy [f], and the rest. *)
Fixpoint span (f : N -> bool) (s : str) : str * str :=
  match s with
  | [] => ([], [])
  | c :: s' =>
      if f c then let (a, b) := span f s' in (c :: a, b) else ([], s)
  end.

Fixpoint strip_prefix (p s : str) : option str :=
  match p, s with
  | [], _ => Some s
  | _ :: _, [] => None
  | a :: p', b :: s' => if (a =? b)%N then strip_prefix p' s' else None
  end.

(** A match of the pattern (the literal [key], the group [[\d\.]+],
    a closing double quote, code point 34) that starts at the head of
    [s]; the result is group 1.  The class excludes the closing quote,
    so the greedy group is the longest run and backtracking finds
    nothing else. *)
Definition match_here (udb : N -> option N) (key s : str) : option str :=
  match strip_prefix key s with
  | None => None
  | Some rest =>
      match span (digit_or_dot udb) rest with
      | (c :: g, q :: _) => if (q =? 34)%N then Some (c :: g) else None
      | _ => None
      end
  end.

(** [re.search] for that pattern in [s]: group 1 of the leftmost
    match, [None] when there is none. *)
Fixpoint re_search (udb : N -> option N) (key s : str) : option str :=
  match match_here udb key s with
  | Some g => Some g
  | None =>
      match s with
      | [] => None
      | _ :: s' => re_search udb key s'
      end
  end.

Fixpoint digits (udb : N -> option N) (s : str) : option (list N) :=
  match s with
  | [] => Some []
  | c :: s' =>
      match decimal udb c, digits udb s' with
      | Some d, Some ds => Some (d :: ds)
      | _, _ => None
      end
  end.

Definition number (ds : list N) : Z :=
  fold_left (fun acc d => (acc * 10 + Z.of_N d)%Z) ds 0%Z.

Definition could_not_convert (s : str) : str :=
  lit "could not convert string to float: '" ++ s ++ lit "'".

(** [float(s)] for a string [s] of decimal digits and dots, which is
    all that group 1 of the patterns can hold: digits with at most one
    dot and at least one digit; anything else is a [ValueError].  The
    result is the exact value of the digits (no rounding, no overflow
    to infinity). *)
Definition float (udb : N -> option N) (s : str) : outcome str R :=
  match split 46 s with
  | [ip] =>
      match digits udb ip with
      | Some (d :: ds) => Ok (IZR (number (d :: ds)))
      | _ => Raise (could_not_convert s)
      end
  | [ip; fp] =>
      match digits udb ip, digits udb fp with
      | Some di, Some df =>
          match di ++ df with
          | [] => Raise (could_not_convert s)
          | _ :: _ => Ok (IZR (number (di ++ df)) / 10 ^ length df)%R
          end
      | _, _ => Raise (could_not_convert s)
      end
  | _ => Raise (could_not_convert s)
  end.

(** *** [math] and [round] *)

Local Open Scope R_scope.

(** [math.radians] *)
Definition radians (x : R) : R := x * (PI / 180).

(** [math.sqrt]: a negative argument is a [ValueError]. *)
Definition math_sqrt (x : R) : outcome str R :=
  if Rlt_dec x 0 then Raise (lit "math domain error") else Ok (sqrt x).

(** [math.atan2 y x]: the angle of the point [(x, y)] in [(-PI, PI]]. *)
Definition atan2 (y x : R) : R :=
  if Rlt_dec 0 x then atan (y / x)
  else if Rlt_dec x 0 then
         if Rle_dec 0 y then atan (y / x) + PI else atan (y / x) - PI
  else if Rlt_dec 0 y then PI / 2
  else if Rlt_dec y 0 then - (PI / 2)
  else 0.

(** The integer nearest to [y], a tie going to the even one. *)
Definition round_half_even (y : R) : Z :=
  let f := Int_part y in
  let d := y - IZR f in
  if Rlt_dec d (1 / 2) then f
  else if Rlt_dec (1 / 2) d then (f + 1)%Z
  else if Z.even f then f else (f + 1)%Z.

(** [round(x, ndigits)] on a float. *)
Definition round (x : R) (ndigits : nat) : R :=
  IZR (round_half_even (x * 10 ^ ndigits)) / 10 ^ ndigits.

(** [bool(x)] for a float [x]: false exactly at zero. *)
Definition float_bool (x : R) : bool :=
  if Req_dec_T x 0 then false else true.

(** *** Dictionaries with string keys, in insertion order *)

Definition dict (V : Type) := list (str * V).

Fixpoint dict_get {V} (d : dict V) (k : str) : option V :=
  match d with
  | [] => None
  | (k', v) :: d' => if str_eqb k' k then Some v else dict_get d' k
  end.

Fixpoint min_from (best : str * R) (rest : dict R) : str :=
  match rest with
  | [] => fst best
  | (k, v) :: rest' =>
      if Rlt_dec v (snd best) then min_from (k, v) rest'
      else min_from best rest'
  end.

(** [min(d, key=d.get)] for a dictionary [d] of floats: the first key,
    in iteration order, whose value is minimal. *)
Definition min_key (d : dict R) : outcome str str :=
  match d with
  | [] => Raise (lit "min() arg is an empty sequence")
  | b :: rest => Ok (min_from b rest)
  end.

(** [d[k]] *)
Definition dict_item {V} (d : dict V) (k : str) : outcome str V :=
  match dict_get d k with
  | Some v => Ok v
  | None => Raise k
  end.

End Py.

Import Py.

Notation "x <- m ;; k" := (bind m (fun x => k))
  (at level 61, m at next level, right associativity).

(** ** BeautifulSoup: what the program asks of a parsed page *)

Module Bs4.

Record Tag : Type := {
  (** the text nodes below the tag, in document order *)
  strings : list str;
  (** [tag.string] *)
  tag_string : option str;
  (** [tag.attrs] *)
  attrs : dict str;
  (** [str(tag)]: the serialized element *)
  markup : str
}.

(** [tag.get_text(strip=True)]: every text node stripped, the empty
    ones dropped, the rest concatenated. *)
Definition get_text (t : Tag) : str :=
  concat (filter (fun s => match s with [] => false | _ => true end)
                 (map strip (strings t))).

(** [tag.has_attr(k)] *)
Definition has_attr (t : Tag) (k : str) : bool :=
  match dict_get (attrs t) k with
  | Some _ => true
  | None => false
  end.

Record Soup : Type := {
  (** [soup.find("h1")] *)
  h1 : option Tag;
  (** [soup.find_all("span")] *)
  spans : list Tag;
  (** [soup.find_all("dt")], each with its [find_next_sibling("dd")] *)
  dts : list (Tag * option Tag);
  (** [soup.find_all("p", class_="paragraph--keep-formatting")] *)
  keep_formatting : list Tag;
  (** [soup.find_all("img")] *)
  imgs : list Tag;
  (** [soup.find("listing-map-container")] *)
  map_container : option Tag
}.

(** [soup.find("span", string=f)]: the first span whose [.string]
    satisfies [f]. *)
Definition find_span (soup : Soup) (f : option str -> bool) : option Tag :=
  find (fun t => f (tag_string t)) (spans soup).

End Bs4.

(** ** The program *)

(** What a request obtains from outside the program. *)
Record Env : Type := {
  (** the Unicode table of decimal digits beyond ASCII *)
  udb : N -> option N;
  (** [requests.get(url, timeout=10)] and the parse of its text *)
  requests_get : str -> outcome str Bs4.Soup;
  (** [str(uuid.uuid4())] *)
  uuid4 : str
}.

Local Open Scope R_scope.

Definition Toolo : str := [84; 246; 246; 108; 246]%N.
Definition Kallio : str := lit "Kallio".
Definition Punavuori : str := lit "Punavuori".

Definition TARGET_AREAS : dict (R * R) :=
  [ (Toolo, (60.1826, 24.9221));
    (Kallio, (60.1854, 24.9525));
    (Punavuori, (60.1595, 24.9384)) ].

(** The name of the one file the program reads and writes; its
    content is [data_file] of a [World]. *)
Definition DATA_FILE : str := lit "listings.json".

Module Listing.
Record t : Type := {
  id : str;
  url : str;
  address : str;
  price : str;
  area : str;
  floor : str;
  rooms : str;
  description : str;
  image_urls : list str;
  latitude : option R;
  longitude : option R;
  nearest_target : str;
  distance_to_target_km : option R
}.
End Listing.

Module URLInput.
Record t : Type := { url : str }.
End URLInput.

(** A value read by [json.load] or written by [json.dump]. *)
#[warnings="-register-all"] Inductive json : Type :=
| JNull
| JBool (b : bool)
| JNum (x : R)
| JStr (s : str)
| JArr (items : list json)
| JObj (members : dict json).

Definition json_of_float (x : option R) : json :=
  match x with
  | Some r => JNum r
  | None => JNull
  end.

(** [listing.dict()] *)
Definition Listing_dict (l : Listing.t) : json :=
  JObj [ (lit "id", JStr (Listing.id l));
         (lit "url", JStr (Listing.url l));
         (lit "address", JStr (Listing.address l));
         (lit "price", JStr (Listing.price l));
         (lit "area", JStr (Listing.area l));
         (lit "floor", JStr (Listing.floor l));
         (lit "rooms", JStr (Listing.rooms l));
         (lit "description", JStr (Listing.description l));
         (lit "image_urls", JArr (map JStr (Listing.image_urls l)));
         (lit "latitude", json_of_float (Listing.latitude l));
         (lit "longitude", json_of_float (Listing.longitude l));
         (lit "nearest_target", JStr (Listing.nearest_target l));
         (lit "distance_to_target_km",
          json_of_float (Listing.distance_to_target_km l)) ].

(** The message of a validation error, cut down to the name of the
    field; no statement depends on its text. *)
Definition validation_error (field : str) : str :=
  lit "validation error for Listing: " ++ field.

(** A field declared [str]: required when [default] is [None]. *)
Definition field_str (item : dict json) (k : str) (default : option str)
  : outcome str str :=
  match dict_get item k, default with
  | Some (JStr s), _ => Ok s
  | None, Some d => Ok d
  | _, _ => Raise (validation_error k)
  end.

Definition as_str (j : json) : outcome str str :=
  match j with
  | JStr s => Ok s
  | _ => Raise (validation_error (lit "image_urls"))
  end.

(** A field declared [List[str] = []]. *)
Definition field_list_str (item : dict json) (k : str) : outcome str (list str) :=
  match dict_get item k with
  | Some (JArr xs) => mapM as_str xs
  | None => Ok []
  | _ => Raise (validation_error k)
  end.

(** A field declared [float | None = None]: a JSON number or [null],
    which is all that [save_data] writes for it.  Values of other JSON
    types that the validator would convert are rejected here. *)
Definition field_float (item : dict json) (k : str) : outcome str (option R) :=
  match dict_get item k with
  | Some (JNum x) => Ok (Some x)
  | Some JNull => Ok None
  | None => Ok None
  | _ => Raise (validation_error k)
  end.

(** The constructor [Listing] applied to the members of [item] as
    keyword arguments: the fields validated against their declared
    types, absent ones taking their defaults. *)
Definition Listing_validate (item : json) : outcome str Listing.t :=
  match item with
  | JObj kv =>
      id <- field_str kv (lit "id") None ;;
      url <- field_str kv (lit "url") None ;;
      address <- field_str kv (lit "address") (Some []) ;;
      price <- field_str kv (lit "price") (Some []) ;;
      area <- field_str kv (lit "area") (Some []) ;;
      floor <- field_str kv (lit "floor") (Some []) ;;
      rooms <- field_str kv (lit "rooms") (Some []) ;;
      description <- field_str kv (lit "description") (Some []) ;;
      image_urls <- field_list_str kv (lit "image_urls") ;;
      latitude <- field_float kv (lit "latitude") ;;
      longitude <- field_float kv (lit "longitude") ;;
      nearest_target <- field_str kv (lit "nearest_target") (Some []) ;;
      distance_to_target_km <- field_float kv (lit "distance_to_target_km") ;;
      Ok {| Listing.id := id; Listing.url := url;
            Listing.address := address; Listing.price := price;
            Listing.area := area; Listing.floor := floor;
            Listing.rooms := rooms; Listing.description := description;
            Listing.image_urls := image_urls;
            Listing.latitude := latitude; Listing.longitude := longitude;
            Listing.nearest_target := nearest_target;
            Listing.distance_to_target_km := distance_to_target_km |}
  | _ => Raise (lit "argument after ** must be a mapping")
  end.

(** *** The store *)

(** The effects a request can have on the outside. *)
Inductive event : Type :=
| HttpGet (url : str)
| FileWrite (data : json).

(** The file [DATA_FILE]: absent, holding a JSON document, or holding
    text that [json.load] rejects. *)
Inductive file : Type :=
| NoFile
| Json (data : json)
| NotJson.

Record World : Type := {
  data_file : file;
  events : list event
}.

(** The items a [for] loop over a loaded JSON value visits. *)
Definition iter (data : json) : outcome str (list json) :=
  match data with
  | JArr items => Ok items
  | JObj members => Ok (map (fun kv => JStr (fst kv)) members)
  | JStr s => Ok (map (fun c => JStr [c]) s)
  | _ => Raise (lit "object is not iterable")
  end.

Definition load_data (w : World) : outcome str (list Listing.t) :=
  match data_file w with
  | NoFile => Ok []
  | NotJson => Raise (lit "JSONDecodeError")
  | Json data =>
      items <- iter data ;;
      mapM Listing_validate items
  end.

Definition save_data (listings : list Listing.t) (w : World) : World :=
  let data := JArr (map Listing_dict listings) in
  {| data_file := Json data; events := events w ++ [FileWrite data] |}.

(** *** Distance calculator *)

(** [math.sqrt] raises on a negative argument, so the result is an
    [outcome]; over the reals neither square root fails. *)
Definition haversine (lat1 lon1 lat2 lon2 : R) : outcome str R :=
  let R := 6371 in
  let dlat := radians (lat2 - lat1) in
  let dlon := radians (lon2 - lon1) in
  let a := sin (dlat / 2) ^ 2
           + cos (radians lat1) * cos (radians lat2) * sin (dlon / 2) ^ 2 in
  y <- math_sqrt a ;;
  x <- math_sqrt (1 - a) ;;
  Ok (R * 2 * atan2 y x).

Definition get_nearest_area (lat lon : R) : outcome str (str * R) :=
  distances <-
    mapM (fun '(name, (area_lat, area_lon)) =>
            d <- haversine lat lon area_lat area_lon ;; Ok (name, d))
         TARGET_AREAS ;;
  nearest <- min_key distances ;;
  d <- dict_item distances nearest ;;
  Ok (nearest, round d 2).

(** *** Field extractor and listing assembler *)

Definition BULLET : N := 9679.  (* U+25CF, the delimiter of the heading *)
Definition EURO : N := 8364.    (* U+20AC *)
Definition LATITUDE : str := lit "[latitude]=" ++ [34%N].
Definition LONGITUDE : str := lit "[longitude]=" ++ [34%N].

(** The body of the loop over the [dt] elements. *)
Definition scan_dt (acc : str * str) (entry : Bs4.Tag * option Bs4.Tag)
  : str * str :=
  let '(area, floor) := acc in
  let '(dt, dd) := entry in
  let key := Bs4.get_text dt in
  match dd with
  | None => (area, floor)
  | Some dd =>
      let val := Bs4.get_text dd in
      let area := if contains (lit "Asuinpinta-ala") key then val else area in
      let floor := if contains (lit "Kerros") key then val else floor in
      (area, floor)
  end.

(** The block that extracts the coordinates from the map container. *)
Definition extract_coordinates (env : Env) (soup : Bs4.Soup)
  : outcome str (option R * option R) :=
  let map_tag := Bs4.map_container soup in
  match map_tag with
  | Some t =>
      let tag_str := Bs4.markup t in
      let lat_match := re_search (udb env) LATITUDE tag_str in
      let lon_match := re_search (udb env) LONGITUDE tag_str in
      match lat_match, lon_match with
      | Some la, Some lo =>
          latitude <- float (udb env) la ;;
          longitude <- float (udb env) lo ;;
          Ok (Some latitude, Some longitude)
      | _, _ => Ok (None, None)
      end
  | None => Ok (None, None)
  end.

(** The block that determines the nearest target area; the test
    [if latitude and longitude] is the truth value of the two floats. *)
Definition determine_nearest (latitude longitude : option R)
  : outcome str (str * option R) :=
  match latitude, longitude with
  | Some lat, Some lon =>
      if float_bool lat && float_bool lon then
        distances <-
          mapM (fun '(name, coords) =>
                  d <- haversine lat lon (fst coords) (snd coords) ;;
                  Ok (name, d))
               TARGET_AREAS ;;
        nearest_target <- min_key distances ;;
        d <- dict_item distances nearest_target ;;
        Ok (nearest_target, Some (round d 2))
      else Ok ([], None)
  | _, _ => Ok ([], None)
  end.

(** The statements of the [try] block, after the page is fetched. *)
Definition scrape_page (env : Env) (url : str) (soup : Bs4.Soup)
  : outcome str Listing.t :=
  (* Address and rooms *)
  let address_tag := Bs4.h1 soup in
  let raw_address :=
    match address_tag with Some t => Bs4.get_text t | None => [] end in
  let parts := split BULLET raw_address in
  let address := strip (nth 0 parts []) in
  let rooms := if (1 <? length parts)%nat then strip (nth 1 parts []) else [] in
  (* Price *)
  let price_tag :=
    Bs4.find_span soup
      (fun t => match t with
                | Some (c :: r) => existsb (N.eqb EURO) (c :: r)
                | _ => false
                end) in
  let price :=
    match price_tag with Some t => Bs4.get_text t | None => [] end in
  (* Area and floor *)
  let '(area, floor) := fold_left scan_dt (Bs4.dts soup) ([], []) in
  (* Description *)
  let description_tags := Bs4.keep_formatting soup in
  let description := join [10; 10]%N (map Bs4.get_text description_tags) in
  (* Images *)
  let image_tags := Bs4.imgs soup in
  let image_urls :=
    flat_map (fun img => match dict_get (Bs4.attrs img) (lit "data-big") with
                         | Some v => [v]
                         | None => []
                         end) image_tags in
  (* Coordinates *)
  coords <- extract_coordinates env soup ;;
  let '(latitude, longitude) := coords in
  (* Nearest target area *)
  target <- determine_nearest latitude longitude ;;
  let '(nearest_target, distance_to_target) := target in
  Ok {| Listing.id := uuid4 env;
        Listing.url := url;
        Listing.address := address;
        Listing.price := price;
        Listing.area := area;
        Listing.floor := floor;
        Listing.rooms := rooms;
        Listing.description := description;
        Listing.image_urls := image_urls;
        Listing.latitude := latitude;
        Listing.longitude := longitude;
        Listing.nearest_target := nearest_target;
        Listing.distance_to_target_km := distance_to_target |}.

(** An exception that leaves a handler: an [HTTPException], or any
    other, which the framework answers with status 500. *)
Inductive exn : Type :=
| HTTPException (status_code : Z) (detail : str)
| Unhandled (message : str).

Definition scrape_listing (env : Env) (url : str) (w : World)
  : outcome exn Listing.t * World :=
  let w := {| data_file := data_file w; events := events w ++ [HttpGet url] |} in
  match soup <- requests_get env url ;; scrape_page env url soup with
  | Ok listing => (Ok listing, w)
  | Raise e =>
      (Raise (HTTPException 500 (lit "Scraping failed: " ++ e)), w)
  end.

(** *** API layer *)

Definition get_listings (w : World) : outcome exn (list Listing.t) * World :=
  match load_data w with
  | Ok listings => (Ok listings, w)
  | Raise e => (Raise (Unhandled e), w)
  end.

Definition add_listing (env : Env) (input : URLInput.t) (w : World)
  : outcome exn Listing.t * World :=
  match load_data w with
  | Raise e => (Raise (Unhandled e), w)
  | Ok listings =>
      if existsb (fun l => str_eqb (Listing.url l) (URLInput.url input)) listings
      then (Raise (HTTPException 400
                     (lit "Listing with this URL already exists.")), w)
      else
        match scrape_listing env (URLInput.url input) w with
        | (Raise e, w) => (Raise e, w)
        | (Ok new_listing, w) =>
            let listings := listings ++ [new_listing] in
            (Ok new_listing, save_data listings w)
        end
  end.

Definition delete_listing (listing_id : str) (w : World)
  : outcome exn (list Listing.t) * World :=
  match load_data w with
  | Raise e => (Raise (Unhandled e), w)
  | Ok data =>
      let updated_data :=
        filter (fun l => negb (str_eqb (Listing.id l) listing_id)) data in
      if (length updated_data =? length data)%nat
      then (Raise (HTTPException 404 (lit "Listing not found")), w)
      else (Ok updated_data, save_data updated_data w)
  end.

(** ** What the statements below speak about *)


(** The attribute value that begins [s]: the characters before the
    first double quote, when there is one. *)
Fixpoint quoted_value (s : str) : option str :=
  match s with
  | [] => None
  | c :: s' =>
      if (c =? 34)%N then Some []
      else match quoted_value s' with
           | Some v => Some (c :: v)
           | None => None
           end
  end.

(** Wherever [key] occurs in [s], the quoted value after it contains a
    minus sign (code point 45). *)
Fixpoint minus_in_every_value (key s : str) : bool :=
  match strip_prefix key s with
  | Some rest =>
      match quoted_value rest with
      | Some v => existsb (N.eqb 45) v
      | None => false
      end
  | None => true
  end
  && match s with
     | [] => true
     | _ :: s' => minus_in_every_value key s'
     end.

(** [without_id i data rest]: [rest] is [data] with every record whose
    id is [i] taken out and every other record left in its place. *)
Inductive without_id (i : str) : list Listing.t -> list Listing.t -> Prop :=
| without_nil : without_id i [] []
| without_drop l data rest :
    Listing.id l = i -> without_id i data rest ->
    without_id i (l :: data) rest
| without_keep l data rest :
    Listing.id l <> i -> without_id i data rest ->
    without_id i (l :: data) (l :: rest).

(** Concrete pages, stores and environments. *)
Module Sample.

(** An [h1] element with the one text node [s]. *)
Definition text_tag (s : str) : Bs4.Tag :=
  {| Bs4.strings := [s]; Bs4.tag_string := Some s; Bs4.attrs := [];
     Bs4.markup := lit "<h1>" ++ s ++ lit "</h1>" |}.

Definition quote (v : str) : str := v ++ [34%N].

(** The map container with the two attributes [lat] and [lon]. *)
Definition map_tag (lat lon : str) : Bs4.Tag :=
  {| Bs4.strings := [];
     Bs4.tag_string := None;
     Bs4.attrs := [(lit "[latitude]", lat); (lit "[longitude]", lon)];
     Bs4.markup :=
       lit "<listing-map-container " ++ LATITUDE ++ quote lat
       ++ lit " " ++ LONGITUDE ++ quote lon
       ++ lit "></listing-map-container>" |}.

Definition page (heading map : option Bs4.Tag) : Bs4.Soup :=
  {| Bs4.h1 := heading; Bs4.spans := []; Bs4.dts := [];
     Bs4.keep_formatting := []; Bs4.imgs := [];
     Bs4.map_container := map |}.

Definition empty_page : Bs4.Soup := page None None.


Definition rooms_page : Bs4.Soup :=
  page (Some (text_tag (lit "Fleminginkatu 5 " ++ [BULLET] ++ lit " 2h+k")))
       None.

Definition equator_page : Bs4.Soup :=
  page None (Some (map_tag (lit "0") (lit "24.9525"))).

Definition kallio_page : Bs4.Soup :=
  page None (Some (map_tag (lit "60.1854") (lit "24.9525"))).

Definition cape_town_page : Bs4.Soup :=
  page None (Some (map_tag (lit "-33.9249") (lit "18.4241"))).

Definition malformed_page : Bs4.Soup :=
  page None (Some (map_tag (lit "60.18.54") (lit "24.9525"))).

Definition env (soup : Bs4.Soup) : Env :=
  {| udb := fun _ => None;
     requests_get := fun _ => Ok soup;
     uuid4 := lit "1b4e28ba-2fa1-41d2-883f-0016d3cca427" |}.

Definition listing (id url : str) : Listing.t :=
  {| Listing.id := id; Listing.url := url; Listing.address := [];
     Listing.price := []; Listing.area := []; Listing.floor := [];
     Listing.rooms := []; Listing.description := [];
     Listing.image_urls := []; Listing.latitude := None;
     Listing.longitude := None; Listing.nearest_target := [];
     Listing.distance_to_target_km := None |}.

Definition first : Listing.t := listing (lit "id-1") (lit "https://e.fi/1").
Definition second : Listing.t := listing (lit "id-2") (lit "https://e.fi/2").
Definition twin : Listing.t := listing (lit "id-1") (lit "https://e.fi/3").

Definition stored (ls : list Listing.t) : World :=
  {| data_file := Json (JArr (map Listing_dict ls)); events := [] |}.

Definition scraped : Listing.t :=
  {| Listing.id := lit "1b4e28ba-2fa1-41d2-883f-0016d3cca427";
     Listing.url := lit "https://e.fi/9";
     Listing.address := lit "Fleminginkatu 5";
     Listing.price := []; Listing.area := []; Listing.floor := [];
     Listing.rooms := lit "2h+k"; Listing.description := [];
     Listing.image_urls := []; Listing.latitude := None;
     Listing.longitude := None; Listing.nearest_target := [];
     Listing.distance_to_target_km := None |}.

(** An element [name] with the one text node [s]. *)
Definition element (name s : str) : Bs4.Tag :=
  {| Bs4.strings := [s]; Bs4.tag_string := Some s; Bs4.attrs := [];
     Bs4.markup := lit "<" ++ name ++ lit ">" ++ s
                   ++ lit "</" ++ name ++ lit ">" |}.

(** A page with two prices and with repeated labels in its list of
    facts, the last [Kerros] label without a value. *)
Definition facts_page : Bs4.Soup :=
  {| Bs4.h1 := None;
     Bs4.spans := [element (lit "span") (lit "Myyntihinta");
                   element (lit "span") (lit "450 000 " ++ [EURO]);
                   element (lit "span") (lit "1 200 " ++ [EURO])];
     Bs4.dts := [(element (lit "dt") (lit "Asuinpinta-ala"),
                  Some (element (lit "dd") (lit "48 m2")));
                 (element (lit "dt") (lit "Kerros"),
                  Some (element (lit "dd") (lit "3/5")));
                 (element (lit "dt") (lit "Asuinpinta-ala"),
                  Some (element (lit "dd") (lit "50 m2")));
                 (element (lit "dt") (lit "Kerros"), None)];
     Bs4.keep_formatting := []; Bs4.imgs := [];
     Bs4.map_container := None |}.

Definition facts_listing : Listing.t :=
  {| Listing.id := lit "1b4e28ba-2fa1-41d2-883f-0016d3cca427";
     Listing.url := lit "https://e.fi/9";
     Listing.address := [];
     Listing.price := lit "450 000 " ++ [EURO];
     Listing.area := lit "50 m2"; Listing.floor := lit "3/5";
     Listing.rooms := []; Listing.description := [];
     Listing.image_urls := []; Listing.latitude := None;
     Listing.longitude := None; Listing.nearest_target := [];
     Listing.distance_to_target_km := None |}.

(** A store whose second record lacks its URL. *)
Definition broken_store : World :=
  {| data_file :=
       Json (JArr [Listing_dict first; JObj [(lit "id", JStr (lit "id-2"))]]);
     events := [] |}.

Definition img (attrs : dict str) : Bs4.Tag :=
  {| Bs4.strings := []; Bs4.tag_string := None; Bs4.attrs := attrs;
     Bs4.markup := lit "<img/>" |}.

(** A page with three images, the second without the large version. *)
Definition gallery_page : Bs4.Soup :=
  {| Bs4.h1 := None; Bs4.spans := []; Bs4.dts := [];
     Bs4.keep_formatting := [];
     Bs4.imgs := [img [(lit "src", lit "a.jpg"); (lit "data-big", lit "A.jpg")];
                  img [(lit "src", lit "b.jpg")];
                  img [(lit "data-big", lit "C.jpg")]];
     Bs4.map_container := None |}.

Definition gallery_listing : Listing.t :=
  {| Listing.id := lit "1b4e28ba-2fa1-41d2-883f-0016d3cca427";
     Listing.url := lit "https://e.fi/9";
     Listing.address := []; Listing.price := []; Listing.area := [];
     Listing.floor := []; Listing.rooms := []; Listing.description := [];
     Listing.image_urls := [lit "A.jpg"; lit "C.jpg"];
     Listing.latitude := None; Listing.longitude := None;
     Listing.nearest_target := []; Listing.distance_to_target_km := None |}.

(** The listing scraped from [kallio_page]. *)
Definition kallio_listing : Listing.t :=
  {| Listing.id := lit "1b4e28ba-2fa1-41d2-883f-0016d3cca427";
     Listing.url := lit "https://e.fi/9";
     Listing.address := []; Listing.price := []; Listing.area := [];
     Listing.floor := []; Listing.rooms := []; Listing.description := [];
     Listing.image_urls := [];
     Listing.latitude := Some 60.1854; Listing.longitude := Some 24.9525;
     Listing.nearest_target := Kallio;
     Listing.distance_to_target_km := Some 0 |}.

(** A map container whose own latitude is negative and whose child
    paragraph has a text in which the latitude key is followed by a
    positive value. *)
Definition decoy_tag : Bs4.Tag :=
  {| Bs4.strings := [LATITUDE ++ quote (lit "60.1854")];
     Bs4.tag_string := Some (LATITUDE ++ quote (lit "60.1854"));
     Bs4.attrs := [(lit "[latitude]", lit "-33.9249");
                   (lit "[longitude]", lit "18.4241")];
     Bs4.markup :=
       lit "<listing-map-container " ++ LATITUDE ++ quote (lit "-33.9249")
       ++ lit " " ++ LONGITUDE ++ quote (lit "18.4241")
       ++ lit "><p>" ++ LATITUDE ++ quote (lit "60.1854")
       ++ lit "</p></listing-map-container>" |}.

Definition decoy_page : Bs4.Soup := page None (Some decoy_tag).

End Sample.

(** * Properties *)

(** ** The model of the Python library on small inputs *)

Example strip_spaces : strip (lit "  a b  ") = lit "a b".
Proof. reflexivity. Qed.

Example strip_no_break_space : strip [160; 97; 8195]%N = [97%N].
Proof. reflexivity. Qed.

Example split_heading :
  split BULLET (lit "Katu 1 " ++ [BULLET] ++ lit " 2h+k") =
  [lit "Katu 1 "; lit " 2h+k"].
Proof. reflexivity. Qed.

Example split_without_delimiter : split BULLET (lit "Katu 1") = [lit "Katu 1"].
Proof. reflexivity. Qed.

Example split_empty : split BULLET [] = [[]].
Proof. reflexivity. Qed.

Example join_paragraphs :
  join [10; 10]%N [lit "a"; lit "b"; lit "c"] =
  lit "a" ++ [10; 10]%N ++ lit "b" ++ [10; 10]%N ++ lit "c".
Proof. reflexivity. Qed.

Example contains_label : contains (lit "Kerros") (lit "Kerros:") = true.
Proof. reflexivity. Qed.

Example get_text_strips_each_node :
  Bs4.get_text {| Bs4.strings := [lit " Katu 1 "; lit "  "; lit " A 2"];
                  Bs4.tag_string := None; Bs4.attrs := [];
                  Bs4.markup := [] |} = lit "Katu 1A 2".
Proof. reflexivity. Qed.

Example re_search_latitude (udb : N -> option N) :
  re_search udb LATITUDE
    (Bs4.markup (Sample.map_tag (lit "60.1854") (lit "24.9525"))) =
  Some (lit "60.1854").
Proof. reflexivity. Qed.

Example re_search_longitude (udb : N -> option N) :
  re_search udb LONGITUDE
    (Bs4.markup (Sample.map_tag (lit "60.1854") (lit "24.9525"))) =
  Some (lit "24.9525").
Proof. reflexivity. Qed.

Example re_search_unclosed (udb : N -> option N) :
  re_search udb LATITUDE (LATITUDE ++ lit "60.1854") = None.
Proof. reflexivity. Qed.

Example re_search_empty_value (udb : N -> option N) :
  re_search udb LATITUDE (LATITUDE ++ [34%N]) = None.
Proof. reflexivity. Qed.

Example float_integer (udb : N -> option N) : float udb (lit "60") = Ok 60%R.
Proof. reflexivity. Qed.

Example float_trailing_dot (udb : N -> option N) :
  float udb (lit "1.") = Ok (1 / 10 ^ 0)%R.
Proof. reflexivity. Qed.

Example float_leading_dot (udb : N -> option N) :
  float udb (lit ".5") = Ok (5 / 10 ^ 1)%R.
Proof. reflexivity. Qed.

Example float_two_dots (udb : N -> option N) :
  float udb (lit "1.2.3") = Raise (could_not_convert (lit "1.2.3")).
Proof. reflexivity. Qed.

Example float_lone_dot (udb : N -> option N) :
  float udb (lit ".") = Raise (could_not_convert (lit ".")).
Proof. reflexivity. Qed.

Example load_data_no_file :
  load_data {| data_file := NoFile; events := [] |} = Ok [].
Proof. reflexivity. Qed.

(** ** Distance calculator *)

Lemma haversine_eq (lat1 lon1 lat2 lon2 a : R) :
  a = sin (radians (lat2 - lat1) / 2) ^ 2
      + cos (radians lat1) * cos (radians lat2)
        * sin (radians (lon2 - lon1) / 2) ^ 2 ->
  haversine lat1 lon1 lat2 lon2 =
  (y <- math_sqrt a ;; x <- math_sqrt (1 - a) ;; Ok (6371 * 2 * atan2 y x)).
Proof. intros ->. reflexivity. Qed.

Lemma math_sqrt_ok (x : R) : 0 <= x -> math_sqrt x = Ok (sqrt x).
Proof.
  intros Hx. unfold math_sqrt.
  destruct (Rlt_dec x 0) as [Hneg | _]; [lra | reflexivity].
Qed.

(** Over the reals the quantity under the square roots lies in
    [[0, 1]], whatever the four coordinates are. *)
Lemma haversine_a_bounds (u v w : R) :
  0 <= sin ((v - u) / 2) ^ 2 + cos u * cos v * sin w ^ 2 <= 1.
Proof.
  pose proof (cos_2a_sin ((v - u) / 2)) as Hhalf.
  replace (2 * ((v - u) / 2)) with (v - u) in Hhalf by field.
  rewrite cos_minus in Hhalf.
  pose proof (COS_bound (v - u)) as Hm. rewrite cos_minus in Hm.
  pose proof (COS_bound (v + u)) as Hp. rewrite cos_plus in Hp.
  pose proof (sin2_cos2 w) as Hw. unfold Rsqr in Hw.
  set (X := sin ((v - u) / 2)) in *.
  set (cu := cos u) in *. set (cv := cos v) in *.
  set (su := sin u) in *. set (sv := sin v) in *.
  set (s := sin w) in *. set (c := cos w) in *.
  assert (Hs0 : 0 <= s * s) by nra.
  assert (Hs1 : s * s <= 1) by nra.
  assert (H1 : 0 <= (1 - s * s) * (1 - (cv * cu + sv * su))) by
    (apply Rmult_le_pos; lra).
  assert (H2 : 0 <= s * s * (1 + (cv * cu - sv * su))) by
    (apply Rmult_le_pos; lra).
  assert (H3 : 0 <= (1 - s * s) * (1 + (cv * cu + sv * su))) by
    (apply Rmult_le_pos; lra).
  assert (H4 : 0 <= s * s * (1 - (cv * cu - sv * su))) by
    (apply Rmult_le_pos; lra).
  split; nra.
Qed.

Lemma atan_nonneg (x : R) : 0 <= x -> 0 <= atan x.
Proof.
  intros [Hx | <-].
  - left. rewrite <- atan_0. now apply atan_increasing.
  - rewrite atan_0. lra.
Qed.

Lemma atan2_nonneg (y x : R) : 0 <= y -> 0 <= x -> 0 <= atan2 y x.
Proof.
  intros Hy Hx. unfold atan2. pose proof PI_RGT_0 as Hpi.
  destruct (Rlt_dec 0 x) as [Hpos | _].
  - apply atan_nonneg. apply Rmult_le_pos; [lra |].
    left. now apply Rinv_0_lt_compat.
  - destruct (Rlt_dec x 0) as [Hneg | _]; [lra |].
    destruct (Rlt_dec 0 y) as [_ | _]; [lra |].
    destruct (Rlt_dec y 0) as [Hyn | _]; lra.
Qed.

Lemma atan2_pos (y x : R) : 0 < y -> 0 <= x -> 0 < atan2 y x.
Proof.
  intros Hy Hx. unfold atan2. pose proof PI_RGT_0 as Hpi.
  destruct (Rlt_dec 0 x) as [Hpos | _].
  - rewrite <- atan_0. apply atan_increasing.
    apply Rmult_lt_0_compat; [lra | now apply Rinv_0_lt_compat].
  - destruct (Rlt_dec x 0) as [Hneg | _]; [lra |].
    destruct (Rlt_dec 0 y) as [_ | Hn]; lra.
Qed.

Lemma haversine_radians_bounds (lat1 lon1 lat2 lon2 : R) :
  0 <= sin (radians (lat2 - lat1) / 2) ^ 2
       + cos (radians lat1) * cos (radians lat2)
         * sin (radians (lon2 - lon1) / 2) ^ 2 <= 1.
Proof.
  replace (radians (lat2 - lat1)) with (radians lat2 - radians lat1)
    by (unfold radians; ring).
  apply haversine_a_bounds.
Qed.

(** Over the reals [haversine] never raises, and a distance is never
    negative. *)
Lemma haversine_total (lat1 lon1 lat2 lon2 : R) :
  exists d, haversine lat1 lon1 lat2 lon2 = Ok d /\ 0 <= d.
Proof.
  pose proof (haversine_radians_bounds lat1 lon1 lat2 lon2) as Ha.
  rewrite (haversine_eq lat1 lon1 lat2 lon2 _ eq_refl).
  set (a := _ + _) in *.
  rewrite (math_sqrt_ok a) by lra.
  rewrite (math_sqrt_ok (1 - a)) by lra.
  cbn [bind]. eexists. split; [reflexivity |].
  pose proof (atan2_nonneg _ _ (sqrt_pos a) (sqrt_pos (1 - a))). lra.
Qed.

Lemma haversine_self (lat lon : R) : haversine lat lon lat lon = Ok 0.
Proof.
  rewrite (haversine_eq lat lon lat lon 0).
  - rewrite (math_sqrt_ok 0) by lra.
    rewrite (math_sqrt_ok (1 - 0)) by lra.
    cbn [bind]. f_equal.
    replace (1 - 0) with 1 by ring. rewrite sqrt_0, sqrt_1.
    unfold atan2. destruct (Rlt_dec 0 1) as [_ | H]; [| lra].
    replace (0 / 1) with 0 by field. rewrite atan_0. ring.
  - unfold radians.
    replace ((lat - lat) * (PI / 180) / 2) with 0 by field.
    replace ((lon - lon) * (PI / 180) / 2) with 0 by field.
    rewrite sin_0. ring.
Qed.

Lemma haversine_sym (lat1 lon1 lat2 lon2 : R) :
  haversine lat1 lon1 lat2 lon2 = haversine lat2 lon2 lat1 lon1.
Proof.
  rewrite (haversine_eq lat1 lon1 lat2 lon2 _ eq_refl).
  symmetry. apply haversine_eq.
  unfold radians.
  replace ((lat2 - lat1) * (PI / 180) / 2)
    with (- ((lat1 - lat2) * (PI / 180) / 2)) by field.
  replace ((lon2 - lon1) * (PI / 180) / 2)
    with (- ((lon1 - lon2) * (PI / 180) / 2)) by field.
  rewrite !sin_neg. ring.
Qed.

Lemma round_0 (ndigits : nat) : round 0 ndigits = 0.
Proof.
  unfold round, round_half_even.
  replace (0 * 10 ^ ndigits) with 0 by ring.
  assert (H0 : Int_part 0 = 0%Z).
  { symmetry. apply Int_part_spec. simpl. lra. }
  rewrite H0.
  destruct (Rlt_dec (0 - 0) (1 / 2)) as [_ | H]; [| lra].
  unfold Rdiv. ring.
Qed.

(** Two points of different latitude, both strictly between the
    poles, are a positive distance apart. *)
Lemma haversine_pos (lat1 lon1 lat2 lon2 : R) :
  -90 < lat1 < 90 -> -90 < lat2 < 90 -> lat1 <> lat2 ->
  exists d, haversine lat1 lon1 lat2 lon2 = Ok d /\ 0 < d.
Proof.
  intros H1 H2 Hne.
  pose proof (haversine_radians_bounds lat1 lon1 lat2 lon2) as Ha.
  rewrite (haversine_eq lat1 lon1 lat2 lon2 _ eq_refl).
  pose proof PI_RGT_0 as Hpi.
  assert (Hc1 : 0 < cos (radians lat1)) by
    (apply cos_gt_0; unfold radians; nra).
  assert (Hc2 : 0 < cos (radians lat2)) by
    (apply cos_gt_0; unfold radians; nra).
  assert (Hs : sin (radians (lat2 - lat1) / 2) <> 0).
  { set (x := radians (lat2 - lat1) / 2).
    assert (Hx : - PI < x < PI /\ x <> 0) by (unfold x, radians; split; nra).
    destruct Hx as [Hx Hx0].
    destruct (Rlt_dec 0 x) as [Hp | Hn].
    - pose proof (sin_gt_0 x Hp (proj2 Hx)). lra.
    - assert (Hm : 0 < - x) by lra.
      pose proof (sin_gt_0 (- x) Hm ltac:(lra)) as Hsin.
      rewrite sin_neg in Hsin. lra. }
  set (p := sin (radians (lat2 - lat1) / 2)) in *.
  set (q := sin (radians (lon2 - lon1) / 2)) in *.
  set (a := _ + _) in *.
  assert (Hapos : 0 < a).
  { unfold a.
    assert (0 < p ^ 2) by (apply pow_lt_0_compat_l || nra).
    assert (0 <= cos (radians lat1) * cos (radians lat2) * q ^ 2) by
      (apply Rmult_le_pos; [nra | apply pow2_ge_0]).
    lra. }
  rewrite (math_sqrt_ok a) by lra.
  rewrite (math_sqrt_ok (1 - a)) by lra.
  cbn [bind]. eexists. split; [reflexivity |].
  pose proof (atan2_pos _ _ (sqrt_lt_R0 a Hapos) (sqrt_pos (1 - a))). lra.
Qed.

(** ** Strings and dictionaries *)

Lemma str_eqb_eq (a b : str) : str_eqb a b = true <-> a = b.
Proof.
  revert b. induction a as [| x a IH]; intros [| y b]; simpl;
    try (split; [discriminate | discriminate]); [tauto |].
  rewrite andb_true_iff, N.eqb_eq, IH.
  split; [intros [-> ->]; reflexivity | intros [= -> ->]; tauto].
Qed.

Lemma str_eqb_refl (a : str) : str_eqb a a = true.
Proof. now apply str_eqb_eq. Qed.

Lemma str_eqb_neq (a b : str) : str_eqb a b = false <-> a <> b.
Proof.
  rewrite <- str_eqb_eq. destruct (str_eqb a b); split; congruence.
Qed.

Lemma dict_get_in {V} (d : dict V) (k : str) :
  In k (map fst d) -> exists v, dict_get d k = Some v /\ In (k, v) d.
Proof.
  induction d as [| [k' v'] d IH]; simpl; [tauto |].
  intros Hin. destruct (str_eqb k' k) eqn:E.
  - apply str_eqb_eq in E. subst. eauto.
  - destruct Hin as [-> | Hin]; [rewrite str_eqb_refl in E; discriminate |].
    destruct (IH Hin) as [v [Hv Hi]]. eauto.
Qed.

Lemma min_from_in (best : str * R) (rest : dict R) :
  In (min_from best rest) (map fst (best :: rest)).
Proof.
  revert best. induction rest as [| [k v] rest IH]; intros best; simpl.
  - now left.
  - destruct (Rlt_dec v (snd best)).
    + right. apply (IH (k, v)).
    + destruct (IH best) as [H | H]; [now left | right; now right].
Qed.

(** When no later value is smaller, the current best key is kept. *)
Lemma min_from_keep (best : str * R) (rest : dict R) :
  Forall (fun e => snd best <= snd e) rest -> min_from best rest = fst best.
Proof.
  revert best. induction rest as [| [k v] rest IH]; intros best Hall; simpl.
  - reflexivity.
  - inversion Hall as [| ? ? Hv Hrest]; subst. simpl in Hv.
    destruct (Rlt_dec v (snd best)); [lra | now apply IH].
Qed.

(** [min] returns the first key whose value is minimal: every value
    before it is larger, and none after it is smaller. *)
Lemma min_from_first (best : str * R) (pre post : dict R) (k : str) (v : R) :
  v < snd best ->
  Forall (fun e => v < snd e) pre ->
  Forall (fun e => v <= snd e) post ->
  min_from best (pre ++ (k, v) :: post) = k.
Proof.
  revert best. induction pre as [| [k' v'] pre IH]; intros best Hb Hpre Hpost.
  - simpl. destruct (Rlt_dec v (snd best)); [| lra].
    now rewrite min_from_keep.
  - inversion Hpre as [| ? ? Hv Hrest]; subst. simpl in Hv. simpl.
    destruct (Rlt_dec v' (snd best)); now apply IH.
Qed.

(** ** Nearest target area *)

Lemma target_distances (lat lon : R) :
  exists d1 d2 d3,
    haversine lat lon 60.1826 24.9221 = Ok d1 /\
    haversine lat lon 60.1854 24.9525 = Ok d2 /\
    haversine lat lon 60.1595 24.9384 = Ok d3 /\
    0 <= d1 /\ 0 <= d2 /\ 0 <= d3.
Proof.
  destruct (haversine_total lat lon 60.1826 24.9221) as [d1 [E1 P1]].
  destruct (haversine_total lat lon 60.1854 24.9525) as [d2 [E2 P2]].
  destruct (haversine_total lat lon 60.1595 24.9384) as [d3 [E3 P3]].
  exists d1, d2, d3. tauto.
Qed.

(** The selection shared by [get_nearest_area] and the block of
    [scrape_listing]: the dictionary of distances, its minimal key and
    the rounded value. *)
Lemma select_nearest (ds : dict R) (k : str) :
  ds <> [] ->
  min_key ds = Ok k ->
  exists d, dict_item ds k = Ok d /\ In (k, d) ds.
Proof.
  intros Hne Hk. destruct ds as [| b rest]; [congruence |].
  simpl in Hk. injection Hk as <-.
  destruct (dict_get_in (b :: rest) _ (min_from_in b rest)) as [v [Hv Hin]].
  exists v. unfold dict_item. now rewrite Hv.
Qed.

(** The result of the selection on the three distances, in the three
    cases where one of them is zero and the ones before it are not. *)
Lemma nearest_first (d2 d3 : R) :
  0 <= d2 -> 0 <= d3 ->
  let ds := [(Toolo, 0); (Kallio, d2); (Punavuori, d3)] in
  min_key ds = Ok Toolo /\ dict_item ds Toolo = Ok 0.
Proof.
  intros H2 H3 ds. split.
  - unfold ds, min_key. rewrite min_from_keep; [reflexivity |].
    repeat apply Forall_cons; try apply Forall_nil; simpl; lra.
  - reflexivity.
Qed.

Lemma nearest_second (d1 d3 : R) :
  0 < d1 -> 0 <= d3 ->
  let ds := [(Toolo, d1); (Kallio, 0); (Punavuori, d3)] in
  min_key ds = Ok Kallio /\ dict_item ds Kallio = Ok 0.
Proof.
  intros H1 H3 ds. split.
  - unfold ds, min_key.
    f_equal.
    apply (min_from_first (Toolo, d1) [] [(Punavuori, d3)] Kallio 0);
      [simpl; lra | apply Forall_nil |].
    repeat apply Forall_cons; try apply Forall_nil; simpl; lra.
  - reflexivity.
Qed.

Lemma nearest_third (d1 d2 : R) :
  0 < d1 -> 0 < d2 ->
  let ds := [(Toolo, d1); (Kallio, d2); (Punavuori, 0)] in
  min_key ds = Ok Punavuori /\ dict_item ds Punavuori = Ok 0.
Proof.
  intros H1 H2 ds. split.
  - unfold ds, min_key.
    f_equal.
    apply (min_from_first (Toolo, d1) [(Kallio, d2)] [] Punavuori 0);
      [simpl; lra | | apply Forall_nil].
    repeat apply Forall_cons; try apply Forall_nil; simpl; lra.
  - reflexivity.
Qed.

Lemma get_nearest_area_eq (lat lon d1 d2 d3 : R) :
  haversine lat lon 60.1826 24.9221 = Ok d1 ->
  haversine lat lon 60.1854 24.9525 = Ok d2 ->
  haversine lat lon 60.1595 24.9384 = Ok d3 ->
  let ds := [(Toolo, d1); (Kallio, d2); (Punavuori, d3)] in
  get_nearest_area lat lon =
  (nearest <- min_key ds ;; d <- dict_item ds nearest ;;
   Ok (nearest, round d 2)).
Proof.
  intros E1 E2 E3 ds. unfold get_nearest_area, TARGET_AREAS.
  cbn [mapM bind]. rewrite E1, E2, E3. reflexivity.
Qed.

Lemma float_bool_true (x : R) : x <> 0 -> float_bool x = true.
Proof.
  intros Hx. unfold float_bool. now destruct (Req_dec_T x 0).
Qed.

Lemma float_bool_0 : float_bool 0 = false.
Proof.
  unfold float_bool. destruct (Req_dec_T 0 0); [reflexivity | lra].
Qed.

Lemma determine_nearest_eq (lat lon d1 d2 d3 : R) :
  lat <> 0 -> lon <> 0 ->
  haversine lat lon 60.1826 24.9221 = Ok d1 ->
  haversine lat lon 60.1854 24.9525 = Ok d2 ->
  haversine lat lon 60.1595 24.9384 = Ok d3 ->
  let ds := [(Toolo, d1); (Kallio, d2); (Punavuori, d3)] in
  determine_nearest (Some lat) (Some lon) =
  (nearest <- min_key ds ;; d <- dict_item ds nearest ;;
   Ok (nearest, Some (round d 2))).
Proof.
  intros Hlat Hlon E1 E2 E3 ds. unfold determine_nearest, TARGET_AREAS.
  rewrite (float_bool_true lat Hlat), (float_bool_true lon Hlon).
  cbn [andb mapM bind fst snd]. rewrite E1, E2, E3. reflexivity.
Qed.

(** The two copies of the selection agree wherever the block of
    [scrape_listing] runs it. *)
Lemma determine_nearest_get_nearest_area (lat lon : R) :
  lat <> 0 -> lon <> 0 ->
  determine_nearest (Some lat) (Some lon) =
  (r <- get_nearest_area lat lon ;; Ok (fst r, Some (snd r))).
Proof.
  intros Hlat Hlon.
  destruct (target_distances lat lon) as (d1 & d2 & d3 & E1 & E2 & E3 & _).
  rewrite (determine_nearest_eq lat lon d1 d2 d3 Hlat Hlon E1 E2 E3).
  rewrite (get_nearest_area_eq lat lon d1 d2 d3 E1 E2 E3).
  destruct (min_key _) as [k |]; [| reflexivity]. cbn [bind].
  destruct (dict_item _ k); reflexivity.
Qed.

Lemma round_nonneg (x : R) (ndigits : nat) : 0 <= x -> 0 <= round x ndigits.
Proof.
  intros Hx. unfold round, round_half_even.
  assert (Hp : 0 < 10 ^ ndigits) by (apply pow_lt; lra).
  set (y := x * 10 ^ ndigits).
  assert (Hy : 0 <= y) by (unfold y; apply Rmult_le_pos; lra).
  destruct (base_Int_part y) as [Hlo Hhi].
  assert (Hf : (0 <= Int_part y)%Z).
  { destruct (Z_le_gt_dec 0 (Int_part y)) as [Hge | Hlt]; [exact Hge |].
    exfalso. assert (Hle : (Int_part y <= -1)%Z) by lia.
    apply IZR_le in Hle. lra. }
  assert (Hres : (0 <= (if Rlt_dec (y - IZR (Int_part y)) (1 / 2)
                        then Int_part y
                        else if Rlt_dec (1 / 2) (y - IZR (Int_part y))
                             then Int_part y + 1
                             else if Z.even (Int_part y)
                                  then Int_part y else Int_part y + 1))%Z).
  { destruct (Rlt_dec _ _); [assumption |].
    destruct (Rlt_dec _ _); [lia |].
    destruct (Z.even _); lia. }
  apply IZR_le in Hres.
  apply Rmult_le_pos; [exact Hres |].
  apply Rlt_le, Rinv_0_lt_compat, Hp.
Qed.

(** Over the reals [get_nearest_area] returns for every point: one of
    the target areas and a distance. *)
Lemma get_nearest_area_total (lat lon : R) :
  exists name d,
    get_nearest_area lat lon = Ok (name, d) /\
    In name (map fst TARGET_AREAS) /\ 0 <= d.
Proof.
  destruct (target_distances lat lon)
    as (d1 & d2 & d3 & E1 & E2 & E3 & P1 & P2 & P3).
  rewrite (get_nearest_area_eq lat lon d1 d2 d3 E1 E2 E3).
  cbn [min_key bind].
  set (k := min_from _ _).
  assert (Hk : In k (map fst [(Toolo, d1); (Kallio, d2); (Punavuori, d3)]))
    by apply min_from_in.
  destruct (dict_get_in _ k Hk) as [v [Hv Hin]].
  unfold dict_item. rewrite Hv. cbn [bind].
  exists k, (round v 2). split; [reflexivity |]. split; [exact Hk |].
  apply round_nonneg. simpl in Hin.
  destruct Hin as [[= _ <-] | [[= _ <-] | [[= _ <-] | []]]]; assumption.
Qed.

(** Over the reals, with both coordinates non-zero the block names
    one of the target areas and gives a distance. *)
Lemma determine_nearest_populated (lat lon : R) :
  lat <> 0 -> lon <> 0 ->
  exists name d,
    determine_nearest (Some lat) (Some lon) = Ok (name, Some d) /\
    In name (map fst TARGET_AREAS) /\ 0 <= d.
Proof.
  intros Hlat Hlon.
  destruct (get_nearest_area_total lat lon) as (name & d & E & Hin & Hd).
  rewrite (determine_nearest_get_nearest_area lat lon Hlat Hlon), E.
  exists name, d. now repeat split.
Qed.

(** ** Stripping and splitting *)









Lemma split_no_delimiter (d : N) (s : str) : ~ In d s -> split d s = [s].
Proof.
  induction s as [| c s IH]; simpl; intros Hn; [reflexivity |].
  destruct (N.eqb_spec c d) as [-> | _]; [tauto |].
  rewrite IH by tauto. reflexivity.
Qed.

(** ** The coordinate patterns *)

Lemma minus_not_in_class (udb : N -> option N) : digit_or_dot udb 45 = false.
Proof. reflexivity. Qed.

Lemma span_forallb (f : N -> bool) (s : str) : forallb f (fst (span f s)) = true.
Proof.
  induction s as [| c s IH]; simpl; [reflexivity |].
  destruct (f c) eqn:E; [| reflexivity].
  destruct (span f s) as [a b]. simpl in *. now rewrite E, IH.
Qed.

(** Group 1 of a match is a non-empty run of digits and dots. *)
Lemma re_search_class (udb : N -> option N) (key s g : str) :
  re_search udb key s = Some g ->
  g <> [] /\ forallb (digit_or_dot udb) g = true.
Proof.
  induction s as [| c s IH]; simpl.
  - unfold match_here. destruct (strip_prefix key []) as [rest |]; [| discriminate].
    pose proof (span_forallb (digit_or_dot udb) rest) as Hf.
    destruct (span (digit_or_dot udb) rest) as [[| x a] [| q b]];
      try discriminate.
    destruct (q =? 34)%N; [| discriminate].
    intros [= <-]. split; [discriminate | exact Hf].
  - destruct (match_here udb key (c :: s)) as [g' |] eqn:E; [| exact IH].
    intros [= <-]. unfold match_here in E.
    destruct (strip_prefix key (c :: s)) as [rest |]; [| discriminate].
    pose proof (span_forallb (digit_or_dot udb) rest) as Hf.
    destruct (span (digit_or_dot udb) rest) as [[| x a] [| q b]];
      try discriminate.
    destruct (q =? 34)%N; [| discriminate].
    injection E as <-. split; [discriminate | exact Hf].
Qed.

(** A value with a minus sign ends the run of digits and dots before
    its closing quote. *)
Lemma span_stops_before_quote (udb : N -> option N) (rest v : str) :
  quoted_value rest = Some v ->
  existsb (N.eqb 45) v = true ->
  match snd (span (digit_or_dot udb) rest) with
  | [] => False
  | q :: _ => q <> 34%N
  end.
Proof.
  revert v. induction rest as [| c rest IH]; simpl; [discriminate |].
  intros v Hq Hm.
  destruct (N.eqb_spec c 34) as [-> | Hc].
  - injection Hq as <-. discriminate.
  - destruct (quoted_value rest) as [v' |]; [| discriminate].
    injection Hq as <-. cbn [existsb] in Hm.
    destruct (digit_or_dot udb c) eqn:Ec; [| exact Hc].
    destruct (N.eqb_spec 45 c) as [<- | _].
    + rewrite minus_not_in_class in Ec. discriminate.
    + cbn [orb] in Hm. specialize (IH v' eq_refl Hm).
      destruct (span (digit_or_dot udb) rest) as [a b]. exact IH.
Qed.

Lemma match_here_minus (udb : N -> option N) (key s rest v : str) :
  strip_prefix key s = Some rest ->
  quoted_value rest = Some v ->
  existsb (N.eqb 45) v = true ->
  match_here udb key s = None.
Proof.
  intros Hp Hq Hm. unfold match_here. rewrite Hp.
  pose proof (span_stops_before_quote udb rest v Hq Hm) as Hs.
  destruct (span (digit_or_dot udb) rest) as [[| x a] [| q b]];
    try reflexivity.
  simpl in Hs. now destruct (N.eqb_spec q 34).
Qed.

(** No match when every value after the key has a minus sign. *)
Lemma re_search_minus (udb : N -> option N) (key s : str) :
  minus_in_every_value key s = true -> re_search udb key s = None.
Proof.
  induction s as [| c s IH]; simpl; rewrite andb_true_iff; intros [Hh Ht].
  - destruct (strip_prefix key []) as [rest |] eqn:Hp.
    + destruct (quoted_value rest) as [v |] eqn:Hq; [| discriminate].
      now rewrite (match_here_minus udb key [] rest v Hp Hq Hh).
    + unfold match_here. now rewrite Hp.
  - destruct (strip_prefix key (c :: s)) as [rest |] eqn:Hp.
    + destruct (quoted_value rest) as [v |] eqn:Hq; [| discriminate].
      rewrite (match_here_minus udb key (c :: s) rest v Hp Hq Hh).
      now apply IH.
    + unfold match_here. rewrite Hp. now apply IH.
Qed.

(** ** Field extractor and listing assembler *)

Lemma determine_nearest_total (latitude longitude : option R) :
  exists r, determine_nearest latitude longitude = Ok r.
Proof.
  destruct latitude as [lat |], longitude as [lon |];
    try (eexists; reflexivity).
  destruct (Req_dec_T lat 0) as [-> | Hlat].
  { unfold determine_nearest. rewrite float_bool_0. eexists; reflexivity. }
  destruct (Req_dec_T lon 0) as [-> | Hlon].
  { unfold determine_nearest. rewrite float_bool_0, andb_false_r.
    eexists; reflexivity. }
  destruct (determine_nearest_populated lat lon Hlat Hlon)
    as (name & d & E & _).
  eexists; exact E.
Qed.

(** [scrape_page] as the two blocks that can raise, followed by the
    record built from the fields. *)
Lemma scrape_page_eq (env : Env) (url : str) (soup : Bs4.Soup) :
  scrape_page env url soup =
  (coords <- extract_coordinates env soup ;;
   target <- determine_nearest (fst coords) (snd coords) ;;
   Ok {| Listing.id := uuid4 env;
         Listing.url := url;
         Listing.address :=
           strip (nth 0 (split BULLET
                           match Bs4.h1 soup with
                           | Some t => Bs4.get_text t
                           | None => []
                           end) []);
         Listing.price :=
           match Bs4.find_span soup
                   (fun t => match t with
                             | Some (c :: r) => existsb (N.eqb EURO) (c :: r)
                             | _ => false
                             end) with
           | Some t => Bs4.get_text t
           | None => []
           end;
         Listing.area := fst (fold_left scan_dt (Bs4.dts soup) ([], []));
         Listing.floor := snd (fold_left scan_dt (Bs4.dts soup) ([], []));
         Listing.rooms :=
           (let parts := split BULLET
                           match Bs4.h1 soup with
                           | Some t => Bs4.get_text t
                           | None => []
                           end in
            if (1 <? length parts)%nat then strip (nth 1 parts []) else []);
         Listing.description :=
           join [10; 10]%N (map Bs4.get_text (Bs4.keep_formatting soup));
         Listing.image_urls :=
           flat_map (fun img =>
                       match dict_get (Bs4.attrs img) (lit "data-big") with
                       | Some v => [v]
                       | None => []
                       end) (Bs4.imgs soup);
         Listing.latitude := fst coords;
         Listing.longitude := snd coords;
         Listing.nearest_target := fst target;
         Listing.distance_to_target_km := snd target |}).
Proof.
  unfold scrape_page.
  destruct (fold_left scan_dt (Bs4.dts soup) ([], [])) as [area floor].
  destruct (extract_coordinates env soup) as [[la lo] |]; cbn [bind];
    [| reflexivity].
  cbn [fst snd].
  destruct (determine_nearest la lo) as [[n d] |]; reflexivity.
Qed.

(** Over the reals the page is assembled whenever the coordinates
    block returns. *)
Lemma scrape_page_returns (env : Env) (url : str) (soup : Bs4.Soup)
      (coords : option R * option R) :
  extract_coordinates env soup = Ok coords ->
  exists l, scrape_page env url soup = Ok l /\
            Listing.latitude l = fst coords /\
            Listing.longitude l = snd coords /\
            determine_nearest (fst coords) (snd coords) =
            Ok (Listing.nearest_target l, Listing.distance_to_target_km l).
Proof.
  intros E. rewrite scrape_page_eq, E. cbn [bind].
  destruct (determine_nearest_total (fst coords) (snd coords)) as [[n d] Hr].
  rewrite Hr. cbn [bind]. eexists. split; [reflexivity |]. now cbn.
Qed.

(** Without coordinates the listing is assembled, with no nearest
    target. *)
Lemma scrape_page_no_coordinates (env : Env) (url : str) (soup : Bs4.Soup) :
  extract_coordinates env soup = Ok (None, None) ->
  exists l, scrape_page env url soup = Ok l /\
            Listing.latitude l = None /\ Listing.longitude l = None /\
            Listing.nearest_target l = [] /\
            Listing.distance_to_target_km l = None.
Proof.
  intros E. rewrite scrape_page_eq, E. cbn [bind fst snd determine_nearest].
  eexists. split; [reflexivity |]. repeat split.
Qed.

(** [scrape_page] raises only after both patterns have matched: the
    failure is in [float] or in the computation of the distances. *)
Lemma scrape_page_raises (env : Env) (url : str) (soup : Bs4.Soup) (e : str) :
  scrape_page env url soup = Raise e ->
  exists t la lo,
    Bs4.map_container soup = Some t /\
    re_search (udb env) LATITUDE (Bs4.markup t) = Some la /\
    re_search (udb env) LONGITUDE (Bs4.markup t) = Some lo.
Proof.
  intros H.
  destruct (Bs4.map_container soup) as [t |] eqn:Ht.
  - destruct (re_search (udb env) LATITUDE (Bs4.markup t)) as [la |] eqn:Hla.
    + destruct (re_search (udb env) LONGITUDE (Bs4.markup t)) as [lo |] eqn:Hlo.
      * now exists t, la, lo.
      * destruct (scrape_page_no_coordinates env url soup) as (l & Hl & _);
          [| congruence].
        unfold extract_coordinates. now rewrite Ht, Hla, Hlo.
    + destruct (scrape_page_no_coordinates env url soup) as (l & Hl & _);
        [| congruence].
      unfold extract_coordinates. now rewrite Ht, Hla.
  - destruct (scrape_page_no_coordinates env url soup) as (l & Hl & _);
      [| congruence].
    unfold extract_coordinates. now rewrite Ht.
Qed.

(** ** The store *)

Lemma mapM_as_str (xs : list str) : mapM as_str (map JStr xs) = Ok xs.
Proof.
  induction xs as [| x xs IH]; simpl; [reflexivity |]. now rewrite IH.
Qed.

Lemma field_float_json_of_float (kv : dict json) (k : str) (x : option R) :
  dict_get kv k = Some (json_of_float x) -> field_float kv k = Ok x.
Proof. unfold field_float. intros ->. now destruct x. Qed.

(** Validating the dictionary of a listing gives the listing back. *)
Lemma validate_dict (l : Listing.t) : Listing_validate (Listing_dict l) = Ok l.
Proof.
  destruct l as [id url address price area floor rooms description
                 image_urls latitude longitude nearest_target distance].
  unfold Listing_validate, Listing_dict. cbn [Listing.id Listing.url
    Listing.address Listing.price Listing.area Listing.floor Listing.rooms
    Listing.description Listing.image_urls Listing.latitude
    Listing.longitude Listing.nearest_target Listing.distance_to_target_km].
  set (kv := [_; _; _; _; _; _; _; _; _; _; _; _; _]).
  change (field_str kv (lit "id") None) with (@Ok str _ id).
  change (field_str kv (lit "url") None) with (@Ok str _ url).
  change (field_str kv (lit "address") (Some [])) with (@Ok str _ address).
  change (field_str kv (lit "price") (Some [])) with (@Ok str _ price).
  change (field_str kv (lit "area") (Some [])) with (@Ok str _ area).
  change (field_str kv (lit "floor") (Some [])) with (@Ok str _ floor).
  change (field_str kv (lit "rooms") (Some [])) with (@Ok str _ rooms).
  change (field_str kv (lit "description") (Some []))
    with (@Ok str _ description).
  change (field_str kv (lit "nearest_target") (Some []))
    with (@Ok str _ nearest_target).
  change (field_list_str kv (lit "image_urls"))
    with (mapM as_str (map JStr image_urls)).
  rewrite mapM_as_str.
  rewrite (field_float_json_of_float kv (lit "latitude") latitude eq_refl).
  rewrite (field_float_json_of_float kv (lit "longitude") longitude eq_refl).
  rewrite (field_float_json_of_float kv (lit "distance_to_target_km")
             distance eq_refl).
  reflexivity.
Qed.

Lemma mapM_validate_dict (ls : list Listing.t) :
  mapM Listing_validate (map Listing_dict ls) = Ok ls.
Proof.
  induction ls as [| l ls IH]; [reflexivity |].
  cbn [map mapM]. rewrite validate_dict, IH. reflexivity.
Qed.

(** What [save_data] writes, [load_data] reads back. *)
Lemma load_save (ls : list Listing.t) (w : World) :
  load_data (save_data ls w) = Ok ls.
Proof.
  unfold load_data, save_data. cbn [data_file iter bind].
  apply mapM_validate_dict.
Qed.

(** ** API layer *)

Lemma existsb_url (u : str) (ls : list Listing.t) :
  existsb (fun l => str_eqb (Listing.url l) u) ls = true <->
  exists l, In l ls /\ Listing.url l = u.
Proof.
  rewrite existsb_exists. split; intros [l [Hin H]]; exists l;
    (split; [exact Hin | now apply str_eqb_eq]).
Qed.

Lemma filter_length_le {A} (f : A -> bool) (l : list A) :
  (length (filter f l) <= length l)%nat.
Proof.
  induction l as [| x l IH]; simpl; [lia |]. destruct (f x); simpl; lia.
Qed.

Lemma filter_all {A} (f : A -> bool) (l : list A) :
  (forall x, In x l -> f x = true) -> filter f l = l.
Proof.
  induction l as [| x l IH]; simpl; intros H; [reflexivity |].
  rewrite (H x) by now left. rewrite IH; [reflexivity |].
  intros y Hy. apply H. now right.
Qed.

Lemma filter_shorter {A} (f : A -> bool) (l : list A) (x : A) :
  In x l -> f x = false -> (length (filter f l) < length l)%nat.
Proof.
  induction l as [| y l IH]; simpl; [tauto |].
  intros [-> | Hin] Hx.
  - rewrite Hx. pose proof (filter_length_le f l). lia.
  - specialize (IH Hin Hx). destruct (f y); simpl; lia.
Qed.

Lemma filter_without_id (i : str) (data : list Listing.t) :
  without_id i data
    (filter (fun l => negb (str_eqb (Listing.id l) i)) data).
Proof.
  induction data as [| x data IH]; simpl; [constructor |].
  destruct (str_eqb (Listing.id x) i) eqn:E; simpl.
  - apply without_drop; [now apply str_eqb_eq | exact IH].
  - apply without_keep; [now apply str_eqb_neq | exact IH].
Qed.

Lemma without_id_In (i : str) (data rest : list Listing.t) :
  without_id i data rest ->
  forall l, In l rest <-> In l data /\ Listing.id l <> i.
Proof.
  induction 1 as [| x data rest Hx _ IH | x data rest Hx _ IH]; intros l; simpl.
  - tauto.
  - rewrite IH. split; [tauto |].
    intros [[-> | Hin] Hne]; [contradiction | tauto].
  - rewrite IH. split.
    + intros [-> | [Hin Hne]]; tauto.
    + intros [[-> | Hin] Hne]; tauto.
Qed.

(** ** The claims of the specification *)

(** C5. The great-circle distance of a point to itself is zero, and the
    distance is symmetric in its two points: the outcome for (p, q) is
    the outcome for (q, p). *)
Theorem haversine_zero_and_symmetric :
  (forall lat lon, haversine lat lon lat lon = Ok 0) /\
  (forall lat1 lon1 lat2 lon2,
      haversine lat1 lon1 lat2 lon2 = haversine lat2 lon2 lat1 lon1).
Proof.
  split.
  - apply haversine_self.
  - apply haversine_sym.
Qed.

(** A disequality between two numerals. *)
Ltac neq := let H := fresh in intro H; lra.

Lemma nearest_at_Toolo :
  get_nearest_area 60.1826 24.9221 = Ok (Toolo, 0) /\
  determine_nearest (Some 60.1826) (Some 24.9221) = Ok (Toolo, Some 0).
Proof.
  pose proof (haversine_self 60.1826 24.9221) as E1.
  destruct (haversine_total 60.1826 24.9221 60.1854 24.9525) as [d2 [E2 P2]].
  destruct (haversine_total 60.1826 24.9221 60.1595 24.9384) as [d3 [E3 P3]].
  destruct (nearest_first d2 d3 P2 P3) as [Hmin Hitem].
  split.
  - rewrite (get_nearest_area_eq _ _ _ _ _ E1 E2 E3), Hmin. cbn [bind].
    rewrite Hitem. cbn [bind]. now rewrite round_0.
  - rewrite (determine_nearest_eq 60.1826 24.9221 _ _ _ ltac:(neq) ltac:(neq) E1 E2 E3),
      Hmin. cbn [bind]. rewrite Hitem. cbn [bind]. now rewrite round_0.
Qed.

Lemma nearest_at_Kallio :
  get_nearest_area 60.1854 24.9525 = Ok (Kallio, 0) /\
  determine_nearest (Some 60.1854) (Some 24.9525) = Ok (Kallio, Some 0).
Proof.
  destruct (haversine_pos 60.1854 24.9525 60.1826 24.9221)
    as [d1 [E1 P1]]; try lra; try neq.
  pose proof (haversine_self 60.1854 24.9525) as E2.
  destruct (haversine_total 60.1854 24.9525 60.1595 24.9384) as [d3 [E3 P3]].
  destruct (nearest_second d1 d3 P1 P3) as [Hmin Hitem].
  split.
  - rewrite (get_nearest_area_eq _ _ _ _ _ E1 E2 E3), Hmin. cbn [bind].
    rewrite Hitem. cbn [bind]. now rewrite round_0.
  - rewrite (determine_nearest_eq 60.1854 24.9525 _ _ _ ltac:(neq) ltac:(neq) E1 E2 E3),
      Hmin. cbn [bind]. rewrite Hitem. cbn [bind]. now rewrite round_0.
Qed.

Lemma nearest_at_Punavuori :
  get_nearest_area 60.1595 24.9384 = Ok (Punavuori, 0) /\
  determine_nearest (Some 60.1595) (Some 24.9384) = Ok (Punavuori, Some 0).
Proof.
  destruct (haversine_pos 60.1595 24.9384 60.1826 24.9221)
    as [d1 [E1 P1]]; try lra; try neq.
  destruct (haversine_pos 60.1595 24.9384 60.1854 24.9525)
    as [d2 [E2 P2]]; try lra; try neq.
  pose proof (haversine_self 60.1595 24.9384) as E3.
  destruct (nearest_third d1 d2 P1 P2) as [Hmin Hitem].
  split.
  - rewrite (get_nearest_area_eq _ _ _ _ _ E1 E2 E3), Hmin. cbn [bind].
    rewrite Hitem. cbn [bind]. now rewrite round_0.
  - rewrite (determine_nearest_eq 60.1595 24.9384 _ _ _ ltac:(neq) ltac:(neq) E1 E2 E3),
      Hmin. cbn [bind]. rewrite Hitem. cbn [bind]. now rewrite round_0.
Qed.

Lemma float_Kallio (udb : N -> option N) :
  float udb (lit "60.1854") = Ok 60.1854 /\
  float udb (lit "24.9525") = Ok 24.9525.
Proof.
  split.
  - replace 60.1854 with (IZR 601854 / 10 ^ 4) by (simpl; lra). reflexivity.
  - replace 24.9525 with (IZR 249525 / 10 ^ 4) by (simpl; lra). reflexivity.
Qed.

Lemma extract_coordinates_map_tag (env : Env) (heading : option Bs4.Tag)
      (la lo : str) :
  re_search (udb env) LATITUDE (Bs4.markup (Sample.map_tag la lo)) = Some la ->
  re_search (udb env) LONGITUDE (Bs4.markup (Sample.map_tag la lo)) = Some lo ->
  extract_coordinates env (Sample.page heading (Some (Sample.map_tag la lo))) =
  (latitude <- float (udb env) la ;;
   longitude <- float (udb env) lo ;;
   Ok (Some latitude, Some longitude)).
Proof.
  intros Hla Hlo. unfold extract_coordinates.
  cbn [Bs4.map_container Sample.page]. now rewrite Hla, Hlo.
Qed.

Lemma extract_coordinates_kallio (env : Env) :
  extract_coordinates env Sample.kallio_page =
  Ok (Some 60.1854, Some 24.9525).
Proof.
  unfold Sample.kallio_page.
  rewrite extract_coordinates_map_tag by reflexivity.
  destruct (float_Kallio (udb env)) as [-> ->]. reflexivity.
Qed.

(** C4. At the coordinates of a target area the selection returns that
    area with distance 0, in [get_nearest_area] and in the block of
    [scrape_listing] alike; the point (60.1854, 24.9525) gives Kallio
    and 0, also for a listing scraped from a page with these
    coordinates. *)
Theorem nearest_at_target_area :
  Forall (fun area =>
            let '(name, (lat, lon)) := area in
            get_nearest_area lat lon = Ok (name, 0) /\
            determine_nearest (Some lat) (Some lon) = Ok (name, Some 0))
         TARGET_AREAS /\
  get_nearest_area 60.1854 24.9525 = Ok (Kallio, 0) /\
  (forall env url,
      exists l, scrape_page env url Sample.kallio_page = Ok l /\
                Listing.latitude l = Some 60.1854 /\
                Listing.longitude l = Some 24.9525 /\
                Listing.nearest_target l = Kallio /\
                Listing.distance_to_target_km l = Some 0).
Proof.
  split; [| split].
  - unfold TARGET_AREAS.
    repeat apply Forall_cons; try apply Forall_nil.
    + exact nearest_at_Toolo.
    + exact nearest_at_Kallio.
    + exact nearest_at_Punavuori.
  - exact (proj1 nearest_at_Kallio).
  - intros env url.
    destruct (scrape_page_returns env url Sample.kallio_page _
                (extract_coordinates_kallio env))
      as (l & Hl & Hlat & Hlon & Hnear).
    cbn [fst snd] in *. rewrite (proj2 nearest_at_Kallio) in Hnear.
    injection Hnear as Hn Hd. exists l. now repeat split.
Qed.

(** C6. Saving a collection and loading it again gives the same
    records in the same order. *)
Theorem save_load_round_trip (listings : list Listing.t) (w : World) :
  load_data (save_data listings w) = Ok listings.
Proof. apply load_save. Qed.

(** C1. An add request whose URL a stored listing already has is
    answered with status 400; the file is unchanged and neither a fetch
    nor a write took place. *)
Theorem add_listing_duplicate
        (env : Env) (input : URLInput.t) (w : World)
        (listings : list Listing.t) :
  load_data w = Ok listings ->
  (exists l, In l listings /\ Listing.url l = URLInput.url input) ->
  add_listing env input w =
  (Raise (HTTPException 400 (lit "Listing with this URL already exists.")), w).
Proof.
  intros Hload Hdup. unfold add_listing. rewrite Hload.
  apply existsb_url in Hdup. now rewrite Hdup.
Qed.

Lemma add_listing_duplicate_witness :
  add_listing (Sample.env Sample.rooms_page)
              {| URLInput.url := lit "https://e.fi/2" |}
              (Sample.stored [Sample.first; Sample.second]) =
  (Raise (HTTPException 400 (lit "Listing with this URL already exists.")),
   Sample.stored [Sample.first; Sample.second]).
Proof.
  apply (add_listing_duplicate _ _ _ [Sample.first; Sample.second]).
  - reflexivity.
  - exists Sample.second. split; [right; left; reflexivity | reflexivity].
Defined.

(** C2. Deleting an id that no stored listing has is answered with
    status 404 and leaves the store as it was; deleting an id that
    some listing has writes the remaining listings and returns them. *)
Theorem delete_listing_not_found_or_persisted
        (listing_id : str) (w : World) (data : list Listing.t) :
  load_data w = Ok data ->
  ((forall l, In l data -> Listing.id l <> listing_id) ->
   delete_listing listing_id w =
   (Raise (HTTPException 404 (lit "Listing not found")), w)) /\
  ((exists l, In l data /\ Listing.id l = listing_id) ->
   exists remaining w',
     delete_listing listing_id w = (Ok remaining, w') /\
     without_id listing_id data remaining /\
     load_data w' = Ok remaining /\
     events w' = events w ++ [FileWrite (JArr (map Listing_dict remaining))]).
Proof.
  intros Hload. unfold delete_listing. rewrite Hload. split.
  - intros Hnone. rewrite filter_all.
    + now rewrite Nat.eqb_refl.
    + intros l Hl. apply negb_true_iff, str_eqb_neq. now apply Hnone.
  - intros [l [Hin Hid]].
    set (keep := fun l0 => negb (str_eqb (Listing.id l0) listing_id)).
    assert (Hlt : (length (filter keep data) < length data)%nat).
    { apply (filter_shorter keep data l Hin). unfold keep.
      apply negb_false_iff, str_eqb_eq, Hid. }
    destruct (Nat.eqb_spec (length (filter keep data)) (length data)); [lia |].
    exists (filter keep data), (save_data (filter keep data) w).
    split; [reflexivity |].
    split; [apply filter_without_id | split; [apply load_save | reflexivity]].
Qed.

Lemma delete_listing_not_found_or_persisted_witness :
  delete_listing (lit "id-9") (Sample.stored [Sample.first; Sample.second]) =
  (Raise (HTTPException 404 (lit "Listing not found")),
   Sample.stored [Sample.first; Sample.second]) /\
  exists remaining w',
    delete_listing (lit "id-2") (Sample.stored [Sample.first; Sample.second]) =
    (Ok remaining, w') /\
    without_id (lit "id-2") [Sample.first; Sample.second] remaining /\
    load_data w' = Ok remaining /\
    events w' = [FileWrite (JArr (map Listing_dict remaining))].
Proof.
  split.
  - apply (proj1 (delete_listing_not_found_or_persisted
                    (lit "id-9") (Sample.stored [Sample.first; Sample.second])
                    [Sample.first; Sample.second] eq_refl)).
    intros l [<- | [<- | []]]; discriminate.
  - apply (proj2 (delete_listing_not_found_or_persisted
                    (lit "id-2") (Sample.stored [Sample.first; Sample.second])
                    [Sample.first; Sample.second] eq_refl)).
    exists Sample.second. split; [right; left; reflexivity | reflexivity].
Defined.

(** C9. A delete that succeeds takes out every record with the given
    id, not only the first, and leaves the other records as they were
    and in their order; that is also what the store then holds. *)
Theorem delete_listing_removes_every_match
        (listing_id : str) (w w' : World) (data rest : list Listing.t) :
  load_data w = Ok data ->
  delete_listing listing_id w = (Ok rest, w') ->
  without_id listing_id data rest /\
  (forall l, In l rest <-> In l data /\ Listing.id l <> listing_id) /\
  load_data w' = Ok rest.
Proof.
  intros Hload. unfold delete_listing. rewrite Hload.
  destruct (_ =? _)%nat; [discriminate |]. intros [= <- <-].
  pose proof (filter_without_id listing_id data) as Hw.
  split; [exact Hw |]. split; [now apply without_id_In | apply load_save].
Qed.

Lemma delete_listing_removes_every_match_witness :
  delete_listing (lit "id-1")
    (Sample.stored [Sample.first; Sample.second; Sample.twin]) =
  (Ok [Sample.second],
   save_data [Sample.second]
     (Sample.stored [Sample.first; Sample.second; Sample.twin])) /\
  without_id (lit "id-1") [Sample.first; Sample.second; Sample.twin]
    [Sample.second].
Proof.
  assert (H : delete_listing (lit "id-1")
                (Sample.stored [Sample.first; Sample.second; Sample.twin]) =
              (Ok [Sample.second],
               save_data [Sample.second]
                 (Sample.stored [Sample.first; Sample.second; Sample.twin])))
    by reflexivity.
  split; [exact H |].
  exact (proj1 (delete_listing_removes_every_match
                  (lit "id-1")
                  (Sample.stored [Sample.first; Sample.second; Sample.twin]) _
                  [Sample.first; Sample.second; Sample.twin]
                  [Sample.second] eq_refl H)).
Defined.

Lemma scrape_listing_ok (env : Env) (url : str) (w w1 : World)
      (listing : Listing.t) :
  scrape_listing env url w = (Ok listing, w1) ->
  Listing.id listing = uuid4 env /\ Listing.url listing = url /\
  data_file w1 = data_file w /\ events w1 = events w ++ [HttpGet url].
Proof.
  unfold scrape_listing.
  destruct (requests_get env url) as [soup |]; cbn [bind]; [| discriminate].
  rewrite scrape_page_eq.
  destruct (extract_coordinates env soup) as [coords |]; cbn [bind];
    [| discriminate].
  destruct (determine_nearest (fst coords) (snd coords)) as [target |];
    cbn [bind]; [| discriminate].
  intros [= <- <-]. repeat split.
Qed.

(** A failed scrape is answered with status 500, and the file keeps
    its content. *)
Lemma add_listing_scrape_fails (env : Env) (input : URLInput.t) (w : World)
      (listings : list Listing.t) :
  load_data w = Ok listings ->
  (forall l, In l listings -> Listing.url l <> URLInput.url input) ->
  forall e w1,
    scrape_listing env (URLInput.url input) w = (Raise e, w1) ->
    add_listing env input w = (Raise e, w1) /\
    data_file w1 = data_file w /\
    exists detail, e = HTTPException 500 detail.
Proof.
  intros Hload Hnew e w1 Hs. unfold add_listing. rewrite Hload.
  destruct (existsb _ listings) eqn:Ex.
  { apply existsb_url in Ex. destruct Ex as [l [Hin Hu]].
    now destruct (Hnew l Hin). }
  rewrite Hs. split; [reflexivity |].
  unfold scrape_listing in Hs.
  destruct (soup <- requests_get env (URLInput.url input) ;;
            scrape_page env (URLInput.url input) soup); [discriminate |].
  injection Hs as <- <-. split; [reflexivity | eauto].
Qed.

(** C7. An add request with a URL that no stored listing has, whose
    page is fetched and assembled into a listing, appends that listing
    (its id the generated one, its URL the requested one) after the
    stored ones, writes the result and returns the new record; the
    stored records stay as they were, each at its position. *)
Theorem add_listing_appends
        (env : Env) (input : URLInput.t) (w : World)
        (listings : list Listing.t) (soup : Bs4.Soup)
        (new_listing : Listing.t) :
  load_data w = Ok listings ->
  (forall l, In l listings -> Listing.url l <> URLInput.url input) ->
  requests_get env (URLInput.url input) = Ok soup ->
  scrape_page env (URLInput.url input) soup = Ok new_listing ->
  let w1 := {| data_file := data_file w;
               events := events w ++ [HttpGet (URLInput.url input)] |} in
  add_listing env input w =
  (Ok new_listing, save_data (listings ++ [new_listing]) w1) /\
  load_data (save_data (listings ++ [new_listing]) w1) =
  Ok (listings ++ [new_listing]) /\
  Listing.id new_listing = uuid4 env /\
  Listing.url new_listing = URLInput.url input /\
  (forall i l, nth_error listings i = Some l ->
               nth_error (listings ++ [new_listing]) i = Some l) /\
  nth_error (listings ++ [new_listing]) (length listings) = Some new_listing.
Proof.
  intros Hload Hnew Hget Hpage w1.
  assert (Hs : scrape_listing env (URLInput.url input) w = (Ok new_listing, w1)).
  { unfold scrape_listing. rewrite Hget. cbn [bind]. now rewrite Hpage. }
  destruct (scrape_listing_ok env _ w w1 new_listing Hs) as (Hid & Hurl & _).
  unfold add_listing. rewrite Hload.
  destruct (existsb _ listings) eqn:Ex.
  { apply existsb_url in Ex. destruct Ex as [l [Hin Hu]].
    now destruct (Hnew l Hin). }
  rewrite Hs. split; [reflexivity |]. split; [apply load_save |].
  split; [exact Hid |]. split; [exact Hurl |]. split.
  - intros i l Hi. rewrite nth_error_app1; [exact Hi |].
    apply nth_error_Some. congruence.
  - rewrite nth_error_app2 by lia. now rewrite Nat.sub_diag.
Qed.

Lemma add_listing_appends_witness :
  add_listing (Sample.env Sample.rooms_page)
              {| URLInput.url := lit "https://e.fi/9" |}
              (Sample.stored [Sample.first; Sample.second]) =
  (Ok Sample.scraped,
   save_data [Sample.first; Sample.second; Sample.scraped]
     {| data_file := data_file (Sample.stored [Sample.first; Sample.second]);
        events := [HttpGet (lit "https://e.fi/9")] |}) /\
  load_data
    (save_data [Sample.first; Sample.second; Sample.scraped]
       {| data_file := data_file (Sample.stored [Sample.first; Sample.second]);
          events := [HttpGet (lit "https://e.fi/9")] |}) =
  Ok [Sample.first; Sample.second; Sample.scraped].
Proof.
  destruct (add_listing_appends
              (Sample.env Sample.rooms_page)
              {| URLInput.url := lit "https://e.fi/9" |}
              (Sample.stored [Sample.first; Sample.second])
              [Sample.first; Sample.second] Sample.rooms_page Sample.scraped)
    as (Hadd & Hload & _).
  - reflexivity.
  - intros l [<- | [<- | []]]; discriminate.
  - reflexivity.
  - reflexivity.
  - split; [exact Hadd | exact Hload].
Defined.

Lemma scan_dt_area (dts : list (Bs4.Tag * option Bs4.Tag)) (area floor : str) :
  (forall dt dd, In (dt, Some dd) dts ->
                 contains (lit "Asuinpinta-ala") (Bs4.get_text dt) = false) ->
  fst (fold_left scan_dt dts (area, floor)) = area.
Proof.
  revert area floor. induction dts as [| [dt [dd |]] dts IH];
    intros area floor H; simpl.
  - reflexivity.
  - rewrite (H dt dd) by now left.
    rewrite IH; [reflexivity |]. intros dt' dd' Hin. apply (H dt' dd'). now right.
  - apply IH. intros dt' dd' Hin. apply (H dt' dd'). now right.
Qed.

Lemma scan_dt_floor (dts : list (Bs4.Tag * option Bs4.Tag)) (area floor : str) :
  (forall dt dd, In (dt, Some dd) dts ->
                 contains (lit "Kerros") (Bs4.get_text dt) = false) ->
  snd (fold_left scan_dt dts (area, floor)) = floor.
Proof.
  revert area floor. induction dts as [| [dt [dd |]] dts IH];
    intros area floor H; simpl.
  - reflexivity.
  - rewrite (H dt dd) by now left.
    rewrite IH; [reflexivity |]. intros dt' dd' Hin. apply (H dt' dd'). now right.
  - apply IH. intros dt' dd' Hin. apply (H dt' dd'). now right.
Qed.


Lemma existsb_not_In (c : N) (s : str) : ~ In c s -> existsb (N.eqb c) s = false.
Proof.
  induction s as [| x s IH]; simpl; intros H; [reflexivity |].
  destruct (N.eqb_spec c x) as [-> | _]; [tauto |]. apply IH. tauto.
Qed.




(** C10, as amended.  The patterns accept digits and dots only, and
    the minus sign is neither: when the value after the latitude key,
    or the value after the longitude key, has a minus sign wherever
    that key occurs in the serialized container, no coordinates are
    extracted and the listing has neither latitude nor longitude (nor
    a nearest target). *)
Theorem negative_coordinate_not_extracted
        (env : Env) (url : str) (soup : Bs4.Soup) (t : Bs4.Tag) :
  Bs4.map_container soup = Some t ->
  minus_in_every_value LATITUDE (Bs4.markup t) = true \/
  minus_in_every_value LONGITUDE (Bs4.markup t) = true ->
  digit_or_dot (udb env) 45 = false /\
  extract_coordinates env soup = Ok (None, None) /\
  exists l, scrape_page env url soup = Ok l /\
            Listing.latitude l = None /\ Listing.longitude l = None /\
            Listing.nearest_target l = [] /\
            Listing.distance_to_target_km l = None.
Proof.
  intros Hmap Hminus. split; [apply minus_not_in_class |].
  assert (Ec : extract_coordinates env soup = Ok (None, None)).
  { unfold extract_coordinates. rewrite Hmap.
    destruct Hminus as [H | H];
      rewrite (re_search_minus (udb env) _ _ H); [reflexivity |].
    now destruct (re_search (udb env) LATITUDE (Bs4.markup t)). }
  split; [exact Ec |].
  exact (scrape_page_no_coordinates env url soup Ec).
Qed.

Lemma negative_coordinate_not_extracted_witness :
  minus_in_every_value LATITUDE
    (Bs4.markup (Sample.map_tag (lit "-33.9249") (lit "18.4241"))) = true /\
  exists l,
    scrape_page (Sample.env Sample.cape_town_page) (lit "https://e.fi/9")
                Sample.cape_town_page = Ok l /\
    Listing.latitude l = None /\ Listing.longitude l = None.
Proof.
  split; [reflexivity |].
  destruct (negative_coordinate_not_extracted
              (Sample.env Sample.cape_town_page) (lit "https://e.fi/9")
              Sample.cape_town_page
              (Sample.map_tag (lit "-33.9249") (lit "18.4241"))
              eq_refl (or_introl eq_refl))
    as (_ & _ & l & Hl & Hlat & Hlon & _).
  exists l. repeat split; assumption.
Defined.

Lemma float_decoy (udb : N -> option N) :
  float udb (lit "18.4241") = Ok 18.4241.
Proof.
  replace 18.4241 with (IZR 184241 / 10 ^ 4) by (simpl; lra). reflexivity.
Qed.

Lemma extract_coordinates_decoy (env : Env) :
  extract_coordinates env Sample.decoy_page = Ok (Some 60.1854, Some 18.4241).
Proof.
  unfold extract_coordinates, Sample.decoy_page.
  cbn [Bs4.map_container Sample.page].
  replace (re_search (udb env) LATITUDE (Bs4.markup Sample.decoy_tag))
    with (Some (lit "60.1854")) by reflexivity.
  replace (re_search (udb env) LONGITUDE (Bs4.markup Sample.decoy_tag))
    with (Some (lit "18.4241")) by reflexivity.
  rewrite (proj1 (float_Kallio (udb env))), float_decoy. reflexivity.
Qed.

(** C10, as the claim words it, fails.  The map container of
    [Sample.decoy_page] has the latitude attribute -33.9249, whose
    value contains a minus sign; the search runs over the whole
    serialized container and matches the latitude key in the text of
    the child, so coordinates are extracted and the listing has
    latitude 60.1854 and longitude 18.4241. *)
Lemma negative_latitude_with_second_occurrence :
  Bs4.map_container Sample.decoy_page = Some Sample.decoy_tag /\
  dict_get (Bs4.attrs Sample.decoy_tag) (lit "[latitude]") =
  Some (lit "-33.9249") /\
  In 45%N (lit "-33.9249") /\
  minus_in_every_value LATITUDE (Bs4.markup Sample.decoy_tag) = false /\
  exists l,
    scrape_page (Sample.env Sample.decoy_page) (lit "https://e.fi/9")
                Sample.decoy_page = Ok l /\
    Listing.latitude l = Some 60.1854 /\
    Listing.longitude l = Some 18.4241.
Proof.
  split; [reflexivity |]. split; [reflexivity |].
  split; [now left |]. split; [reflexivity |].
  destruct (scrape_page_returns (Sample.env Sample.decoy_page)
              (lit "https://e.fi/9") Sample.decoy_page _
              (extract_coordinates_decoy (Sample.env Sample.decoy_page)))
    as (l & Hl & Hlat & Hlon & _).
  exists l. now repeat split.
Qed.

(** A coordinate that is zero counts as false in the test of the
    block, so no nearest target is determined. *)
Lemma determine_nearest_zero (lat lon : R) :
  lat = 0 \/ lon = 0 ->
  determine_nearest (Some lat) (Some lon) = Ok ([], None).
Proof.
  unfold determine_nearest. intros [-> | ->]; rewrite float_bool_0.
  - reflexivity.
  - now rewrite andb_false_r.
Qed.

Lemma extract_coordinates_equator (env : Env) :
  extract_coordinates env Sample.equator_page = Ok (Some 0, Some 24.9525).
Proof.
  unfold Sample.equator_page.
  rewrite extract_coordinates_map_tag by reflexivity.
  rewrite (proj2 (float_Kallio (udb env))). reflexivity.
Qed.

(** C3. The nearest target is determined when both coordinates were
    found and are non-zero, not whenever they were found: for the page
    whose container has latitude 0 and longitude 24.9525 both
    coordinates are extracted, and the listing has an empty nearest
    target and no distance, while [get_nearest_area] names a target
    area at that very point. *)
Theorem zero_latitude_leaves_target_empty (env : Env) (url : str) :
  (exists l,
      scrape_page env url Sample.equator_page = Ok l /\
      Listing.latitude l = Some 0 /\
      Listing.longitude l = Some 24.9525 /\
      Listing.nearest_target l = [] /\
      Listing.distance_to_target_km l = None) /\
  (exists name d,
      get_nearest_area 0 24.9525 = Ok (name, d) /\
      In name (map fst TARGET_AREAS)).
Proof.
  split.
  - destruct (scrape_page_returns env url Sample.equator_page _
                (extract_coordinates_equator env))
      as (l & Hl & Hlat & Hlon & Hnear).
    cbn [fst snd] in *.
    rewrite (determine_nearest_zero 0 24.9525 (or_introl eq_refl)) in Hnear.
    injection Hnear as Hn Hd. exists l. repeat split; congruence.
  - destruct (get_nearest_area_total 0 24.9525) as (name & d & E & Hin & _).
    now exists name, d.
Qed.

(** A group that [float] rejects is not taken as missing coordinates:
    the scrape fails, and the request is answered with status 500. *)
Lemma malformed_coordinate_raises (env : Env) (url : str) (w : World) :
  requests_get env url = Ok Sample.malformed_page ->
  scrape_page env url Sample.malformed_page =
  Raise (could_not_convert (lit "60.18.54")) /\
  fst (scrape_listing env url w) =
  Raise (HTTPException 500
           (lit "Scraping failed: " ++ could_not_convert (lit "60.18.54"))).
Proof.
  intros Hget.
  assert (Hpage : scrape_page env url Sample.malformed_page =
                  Raise (could_not_convert (lit "60.18.54"))).
  { rewrite scrape_page_eq. unfold Sample.malformed_page.
    rewrite extract_coordinates_map_tag by reflexivity. reflexivity. }
  split; [exact Hpage |].
  unfold scrape_listing. rewrite Hget. cbn [bind]. now rewrite Hpage.
Qed.

(** * Further properties of the code *)

(** ** Distance calculator *)

(** X1. Whenever [haversine] returns, what it returns is not
    negative. *)
Theorem haversine_nonneg (lat1 lon1 lat2 lon2 d : R) :
  haversine lat1 lon1 lat2 lon2 = Ok d -> 0 <= d.
Proof.
  rewrite (haversine_eq lat1 lon1 lat2 lon2 _ eq_refl).
  set (a := _ + _). unfold math_sqrt.
  destruct (Rlt_dec a 0) as [_ | _]; cbn [bind]; [discriminate |].
  destruct (Rlt_dec (1 - a) 0) as [_ | _]; cbn [bind]; [discriminate |].
  intros [= <-].
  pose proof (atan2_nonneg _ _ (sqrt_pos a) (sqrt_pos (1 - a))). lra.
Qed.

Lemma haversine_nonneg_witness :
  exists d, haversine 60.1854 24.9525 60.1826 24.9221 = Ok d /\ 0 <= d.
Proof.
  destruct (haversine_pos 60.1854 24.9525 60.1826 24.9221)
    as [d [E _]]; try lra; try neq.
  exists d. split; [exact E |].
  exact (haversine_nonneg 60.1854 24.9525 60.1826 24.9221 d E).
Defined.

(** X3. The distance is the same after mirroring both points at the
    equator: negating both latitudes does not change the outcome. *)
Theorem haversine_mirror (lat1 lon1 lat2 lon2 : R) :
  haversine (- lat1) lon1 (- lat2) lon2 = haversine lat1 lon1 lat2 lon2.
Proof.
  rewrite (haversine_eq lat1 lon1 lat2 lon2 _ eq_refl).
  apply haversine_eq. unfold radians.
  replace ((- lat2 - - lat1) * (PI / 180) / 2)
    with (- ((lat2 - lat1) * (PI / 180) / 2)) by field.
  replace (- lat1 * (PI / 180)) with (- (lat1 * (PI / 180))) by ring.
  replace (- lat2 * (PI / 180)) with (- (lat2 * (PI / 180))) by ring.
  rewrite sin_neg, !cos_neg. ring.
Qed.

(** ** Nearest target area *)







(** X5. For coordinates that are both non-zero the block of
    [scrape_listing] that determines the nearest target gives what
    [get_nearest_area] gives: the two copies of the selection agree. *)
Theorem nearest_block_agrees (lat lon : R) (name : str) (d : R) :
  lat <> 0 -> lon <> 0 ->
  (determine_nearest (Some lat) (Some lon) = Ok (name, Some d) <->
   get_nearest_area lat lon = Ok (name, d)).
Proof.
  intros Hlat Hlon.
  rewrite (determine_nearest_get_nearest_area lat lon Hlat Hlon).
  destruct (get_nearest_area lat lon) as [[n x] |]; cbn [bind fst snd].
  - split; intros [= -> ->]; reflexivity.
  - split; discriminate.
Qed.

Lemma nearest_block_agrees_witness :
  60.1854 <> 0 /\ 24.9525 <> 0 /\
  (determine_nearest (Some 60.1854) (Some 24.9525) = Ok (Kallio, Some 0) <->
   get_nearest_area 60.1854 24.9525 = Ok (Kallio, 0)).
Proof.
  assert (H1 : 60.1854 <> 0) by (intro H; lra).
  assert (H2 : 24.9525 <> 0) by (intro H; lra).
  split; [exact H1 |]. split; [exact H2 |].
  exact (nearest_block_agrees 60.1854 24.9525 Kallio 0 H1 H2).
Defined.

(** ** Coordinates of a scraped listing *)

(** The page with Kallio's coordinates gives [Sample.kallio_listing],
    for the generated id and the URL of that record. *)
Lemma scrape_kallio (env : Env) (url : str) :
  uuid4 env = Listing.id Sample.kallio_listing ->
  url = Listing.url Sample.kallio_listing ->
  scrape_page env url Sample.kallio_page = Ok Sample.kallio_listing.
Proof.
  intros Hid ->. rewrite scrape_page_eq, extract_coordinates_kallio.
  cbn [bind fst snd]. rewrite (proj2 nearest_at_Kallio).
  cbn [bind fst snd]. rewrite Hid. reflexivity.
Qed.

Lemma number_nonneg (ds : list N) : (0 <= number ds)%Z.
Proof.
  unfold number.
  assert (H : forall acc, (0 <= acc)%Z ->
                (0 <= fold_left (fun a d => (a * 10 + Z.of_N d)%Z) ds acc)%Z).
  { induction ds as [| d ds IH]; simpl; intros acc Hacc; [exact Hacc |].
    apply IH. pose proof (N2Z.is_nonneg d). lia. }
  apply H. lia.
Qed.

(** [float] of a group of digits and dots is never negative. *)
Lemma float_nonneg (udb : N -> option N) (s : str) (x : R) :
  float udb s = Ok x -> 0 <= x.
Proof.
  unfold float.
  destruct (split 46 s) as [| ip [| fp [| ? ?]]]; try discriminate.
  - destruct (digits udb ip) as [[| d ds] |]; try discriminate.
    intros [= <-]. apply IZR_le, number_nonneg.
  - destruct (digits udb ip) as [di |]; [| discriminate].
    destruct (digits udb fp) as [df |]; [| discriminate].
    destruct (di ++ df) as [| c r] eqn:E; [discriminate |].
    intros [= <-].
    apply Rmult_le_pos; [apply IZR_le, number_nonneg |].
    apply Rlt_le, Rinv_0_lt_compat, pow_lt. lra.
Qed.

Lemma extract_coordinates_inv (env : Env) (soup : Bs4.Soup)
      (coords : option R * option R) :
  extract_coordinates env soup = Ok coords ->
  coords = (None, None) \/
  exists t la lo lat lon,
    Bs4.map_container soup = Some t /\
    re_search (udb env) LATITUDE (Bs4.markup t) = Some la /\
    re_search (udb env) LONGITUDE (Bs4.markup t) = Some lo /\
    float (udb env) la = Ok lat /\ float (udb env) lo = Ok lon /\
    coords = (Some lat, Some lon).
Proof.
  unfold extract_coordinates.
  destruct (Bs4.map_container soup) as [t |] eqn:Ht;
    [| intros [= <-]; now left].
  destruct (re_search (udb env) LATITUDE (Bs4.markup t)) as [la |] eqn:Hla;
    [| intros [= <-]; now left].
  destruct (re_search (udb env) LONGITUDE (Bs4.markup t)) as [lo |] eqn:Hlo;
    [| intros [= <-]; now left].
  destruct (float (udb env) la) as [lat |] eqn:Flat; cbn [bind];
    [| discriminate].
  destruct (float (udb env) lo) as [lon |] eqn:Flon; cbn [bind];
    [| discriminate].
  intros [= <-]. right. exists t, la, lo, lat, lon. repeat split; assumption.
Qed.

Lemma scrape_page_inv (env : Env) (url : str) (soup : Bs4.Soup)
      (l : Listing.t) :
  scrape_page env url soup = Ok l ->
  extract_coordinates env soup = Ok (Listing.latitude l, Listing.longitude l) /\
  determine_nearest (Listing.latitude l) (Listing.longitude l) =
  Ok (Listing.nearest_target l, Listing.distance_to_target_km l).
Proof.
  rewrite scrape_page_eq.
  destruct (extract_coordinates env soup) as [[la lo] |]; cbn [bind];
    [| discriminate].
  cbn [fst snd].
  destruct (determine_nearest la lo) as [[n d] |] eqn:E; cbn [bind];
    [| discriminate].
  intros [= <-]. cbn. now rewrite E.
Qed.

(** X6. A scraped listing has both coordinates or neither; a
    coordinate it has is the value [float] gives to the group that the
    pattern matched in the serialized map container, and is never
    negative. *)
Theorem scraped_coordinates
        (env : Env) (url : str) (soup : Bs4.Soup) (l : Listing.t) :
  scrape_page env url soup = Ok l ->
  (Listing.latitude l = None /\ Listing.longitude l = None) \/
  (exists t la lo lat lon,
      Bs4.map_container soup = Some t /\
      re_search (udb env) LATITUDE (Bs4.markup t) = Some la /\
      re_search (udb env) LONGITUDE (Bs4.markup t) = Some lo /\
      float (udb env) la = Ok lat /\ float (udb env) lo = Ok lon /\
      Listing.latitude l = Some lat /\ Listing.longitude l = Some lon /\
      0 <= lat /\ 0 <= lon).
Proof.
  intros Hl. destruct (scrape_page_inv env url soup l Hl) as [Hc _].
  destruct (extract_coordinates_inv env soup _ Hc) as [E | E].
  - left. now injection E as -> ->.
  - right. destruct E as (t & la & lo & lat & lon & Ht & Hla & Hlo & Flat
                          & Flon & E).
    injection E as -> ->. exists t, la, lo, lat, lon.
    repeat split; try assumption.
    + exact (float_nonneg _ _ _ Flat).
    + exact (float_nonneg _ _ _ Flon).
Qed.

Lemma scraped_coordinates_witness :
  scrape_page (Sample.env Sample.kallio_page) (lit "https://e.fi/9")
              Sample.kallio_page = Ok Sample.kallio_listing /\
  exists t la lo lat lon,
    Bs4.map_container Sample.kallio_page = Some t /\
    re_search (udb (Sample.env Sample.kallio_page)) LATITUDE (Bs4.markup t)
    = Some la /\
    re_search (udb (Sample.env Sample.kallio_page)) LONGITUDE (Bs4.markup t)
    = Some lo /\
    float (udb (Sample.env Sample.kallio_page)) la = Ok lat /\
    float (udb (Sample.env Sample.kallio_page)) lo = Ok lon /\
    Listing.latitude Sample.kallio_listing = Some lat /\
    Listing.longitude Sample.kallio_listing = Some lon /\
    0 <= lat /\ 0 <= lon.
Proof.
  split; [now apply scrape_kallio |].
  destruct (scraped_coordinates (Sample.env Sample.kallio_page)
              (lit "https://e.fi/9") Sample.kallio_page Sample.kallio_listing
              (scrape_kallio (Sample.env Sample.kallio_page)
                 (lit "https://e.fi/9") eq_refl eq_refl))
    as [[Hnone _] | Hsome].
  - discriminate Hnone.
  - exact Hsome.
Defined.

(** X7. In a scraped listing the nearest target and the distance are
    set together or not at all.  They are set exactly when both
    coordinates are present and non-zero, and then they are what
    [get_nearest_area] gives at the coordinates: the name of a target
    area and a distance that is not negative. *)
Theorem scraped_nearest_target
        (env : Env) (url : str) (soup : Bs4.Soup) (l : Listing.t) :
  scrape_page env url soup = Ok l ->
  (exists lat lon d,
      Listing.latitude l = Some lat /\ Listing.longitude l = Some lon /\
      lat <> 0 /\ lon <> 0 /\
      get_nearest_area lat lon = Ok (Listing.nearest_target l, d) /\
      Listing.distance_to_target_km l = Some d /\
      In (Listing.nearest_target l) (map fst TARGET_AREAS) /\ 0 <= d) \/
  ((Listing.latitude l = None \/ Listing.latitude l = Some 0 \/
    Listing.longitude l = None \/ Listing.longitude l = Some 0) /\
   Listing.nearest_target l = [] /\
   Listing.distance_to_target_km l = None).
Proof.
  intros Hl. destruct (scrape_page_inv env url soup l Hl) as [_ Hn].
  destruct (Listing.latitude l) as [lat |];
    [| right; injection Hn as <- <-; tauto].
  destruct (Listing.longitude l) as [lon |];
    [| right; injection Hn as <- <-; tauto].
  destruct (Req_dec_T lat 0) as [-> | Hlat].
  { rewrite determine_nearest_zero in Hn by now left.
    right. injection Hn as <- <-. tauto. }
  destruct (Req_dec_T lon 0) as [-> | Hlon].
  { rewrite determine_nearest_zero in Hn by now right.
    right. injection Hn as <- <-. tauto. }
  left. destruct (get_nearest_area_total lat lon) as (name & d & E & Hin & Hd).
  rewrite (determine_nearest_get_nearest_area lat lon Hlat Hlon), E in Hn.
  cbn [bind fst snd] in Hn. injection Hn as <- <-.
  exists lat, lon, d. repeat split; assumption.
Qed.

Lemma scraped_nearest_target_witness :
  scrape_page (Sample.env Sample.kallio_page) (lit "https://e.fi/9")
              Sample.kallio_page = Ok Sample.kallio_listing /\
  exists lat lon d,
    Listing.latitude Sample.kallio_listing = Some lat /\
    Listing.longitude Sample.kallio_listing = Some lon /\
    lat <> 0 /\ lon <> 0 /\
    get_nearest_area lat lon =
    Ok (Listing.nearest_target Sample.kallio_listing, d) /\
    Listing.distance_to_target_km Sample.kallio_listing = Some d /\
    In (Listing.nearest_target Sample.kallio_listing) (map fst TARGET_AREAS) /\
    0 <= d.
Proof.
  split; [now apply scrape_kallio |].
  destruct (scraped_nearest_target (Sample.env Sample.kallio_page)
              (lit "https://e.fi/9") Sample.kallio_page Sample.kallio_listing
              (scrape_kallio (Sample.env Sample.kallio_page)
                 (lit "https://e.fi/9") eq_refl eq_refl))
    as [Hset | (_ & Hempty & _)].
  - exact Hset.
  - discriminate Hempty.
Defined.

(** ** The coordinate patterns, read as patterns *)

Lemma strip_prefix_app (p s rest : str) :
  strip_prefix p s = Some rest <-> s = p ++ rest.
Proof.
  revert s. induction p as [| a p IH]; intros s; simpl.
  - split; [intros [= ->]; reflexivity | intros ->; reflexivity].
  - destruct s as [| b s]; [split; discriminate |].
    destruct (N.eqb_spec a b) as [-> | Hne].
    + rewrite IH. split; [intros ->; reflexivity | intros [= ->]; reflexivity].
    + split; [discriminate | intros [= -> _]; congruence].
Qed.

Lemma span_app (f : N -> bool) (s : str) :
  s = fst (span f s) ++ snd (span f s).
Proof.
  induction s as [| c s IH]; simpl; [reflexivity |].
  destruct (f c); [| reflexivity].
  destruct (span f s) as [a b]. simpl in *. now rewrite <- IH.
Qed.

Lemma span_run (f : N -> bool) (g rest : str) (q : N) :
  forallb f g = true -> f q = false ->
  span f (g ++ q :: rest) = (g, q :: rest).
Proof.
  intros Hg Hq. induction g as [| c g IH]; simpl.
  - now rewrite Hq.
  - simpl in Hg. apply andb_true_iff in Hg. destruct Hg as [Hc Hg].
    rewrite Hc, (IH Hg). reflexivity.
Qed.

Lemma match_here_iff (udb : N -> option N) (key s g : str) :
  match_here udb key s = Some g <->
  g <> [] /\ forallb (digit_or_dot udb) g = true /\
  exists post, s = key ++ g ++ 34%N :: post.
Proof.
  unfold match_here. split.
  - destruct (strip_prefix key s) as [rest |] eqn:Hp; [| discriminate].
    apply strip_prefix_app in Hp.
    pose proof (span_forallb (digit_or_dot udb) rest) as Hf.
    pose proof (span_app (digit_or_dot udb) rest) as Ha.
    destruct (span (digit_or_dot udb) rest) as [[| x a] [| q b]];
      try discriminate.
    destruct (N.eqb_spec q 34) as [-> | _]; [| discriminate].
    intros [= <-]. simpl in Hf, Ha.
    split; [discriminate |]. split; [exact Hf |].
    exists b. now rewrite Hp, Ha.
  - intros (Hne & Hf & post & ->).
    rewrite (proj2 (strip_prefix_app key _ (g ++ 34%N :: post)) eq_refl).
    rewrite (span_run _ g post 34%N Hf eq_refl).
    destruct g; [congruence | reflexivity].
Qed.

(** X8. The search for a coordinate finds nothing exactly when the
    text nowhere has the key followed by a non-empty run of digits and
    dots and a closing quote; and a group it returns is such a run,
    standing in the text between the key and a closing quote. *)
Theorem re_search_spec (udb : N -> option N) (key s : str) :
  (forall g, re_search udb key s = Some g ->
             g <> [] /\ forallb (digit_or_dot udb) g = true /\
             exists pre post, s = pre ++ key ++ g ++ 34%N :: post) /\
  (re_search udb key s = None <->
   forall pre g post,
     g <> [] -> forallb (digit_or_dot udb) g = true ->
     s <> pre ++ key ++ g ++ 34%N :: post).
Proof.
  split.
  - induction s as [| c s IH]; intros g; simpl.
    + destruct (match_here udb key []) as [g' |] eqn:E; [| discriminate].
      intros [= <-]. apply match_here_iff in E.
      destruct E as (Hne & Hf & post & E).
      split; [exact Hne |]. split; [exact Hf |]. now exists [], post.
    + destruct (match_here udb key (c :: s)) as [g' |] eqn:E.
      * intros [= <-]. apply match_here_iff in E.
        destruct E as (Hne & Hf & post & E).
        split; [exact Hne |]. split; [exact Hf |]. now exists [], post.
      * intros Hg. destruct (IH g Hg) as (Hne & Hf & pre & post & ->).
        split; [exact Hne |]. split; [exact Hf |]. now exists (c :: pre), post.
  - induction s as [| c s IH]; simpl.
    + destruct (match_here udb key []) as [g' |] eqn:E.
      * split; [discriminate |]. intros H. exfalso.
        apply match_here_iff in E. destruct E as (Hne & Hf & post & E).
        exact (H [] g' post Hne Hf E).
      * split; [| reflexivity]. intros _ pre g post Hne Hf Hs.
        assert (Hm : match_here udb key [] = Some g).
        { apply match_here_iff. split; [exact Hne |]. split; [exact Hf |].
          exists post. destruct pre; [exact Hs | discriminate]. }
        congruence.
    + destruct (match_here udb key (c :: s)) as [g' |] eqn:E.
      * split; [discriminate |]. intros H. exfalso.
        apply match_here_iff in E. destruct E as (Hne & Hf & post & E).
        exact (H [] g' post Hne Hf E).
      * rewrite IH. split.
        -- intros H pre g post Hne Hf Hs. destruct pre as [| c' pre].
           ++ assert (Hm : match_here udb key (c :: s) = Some g).
              { apply match_here_iff. split; [exact Hne |].
                split; [exact Hf |]. now exists post. }
              congruence.
           ++ injection Hs as _ Hs. exact (H pre g post Hne Hf Hs).
        -- intros H pre g post Hne Hf Hs.
           apply (H (c :: pre) g post Hne Hf). simpl. now rewrite Hs.
Qed.

(** ** Field extractor *)

Lemma split_at_delimiter (d : N) (a b : str) :
  ~ In d a -> split d (a ++ d :: b) = a :: split d b.
Proof.
  induction a as [| c a IH]; simpl; intros Hn.
  - now rewrite N.eqb_refl.
  - destruct (N.eqb_spec c d) as [-> | _]; [tauto |].
    rewrite IH by tauto. reflexivity.
Qed.

Lemma split_not_nil (d : N) (s : str) : split d s <> [].
Proof.
  induction s as [| c s IH]; simpl; [discriminate |].
  destruct (c =? d)%N; [discriminate |].
  destruct (split d s); [congruence | discriminate].
Qed.

(** X9. When the heading has the delimiter, the address is the
    stripped text before the first delimiter and the rooms are the
    stripped text between the first delimiter and the second; what
    follows a second delimiter is dropped. *)
Theorem heading_with_delimiter
        (env : Env) (url : str) (soup : Bs4.Soup) (l : Listing.t)
        (t : Bs4.Tag) (a b : str) :
  scrape_page env url soup = Ok l ->
  Bs4.h1 soup = Some t ->
  Bs4.get_text t = a ++ BULLET :: b ->
  ~ In BULLET a ->
  Listing.address l = strip a /\
  (~ In BULLET b -> Listing.rooms l = strip b) /\
  (forall b1 b2, b = b1 ++ BULLET :: b2 -> ~ In BULLET b1 ->
                 Listing.rooms l = strip b1).
Proof.
  intros Hl Hh Ht Ha. rewrite scrape_page_eq in Hl.
  destruct (extract_coordinates env soup) as [coords |]; cbn [bind] in Hl;
    [| discriminate].
  destruct (determine_nearest (fst coords) (snd coords)) as [target |];
    cbn [bind] in Hl; [| discriminate].
  injection Hl as <-. cbn [Listing.address Listing.rooms].
  rewrite Hh, Ht, (split_at_delimiter BULLET a b Ha).
  split; [reflexivity |]. split.
  - intros Hb. rewrite (split_no_delimiter BULLET b Hb). reflexivity.
  - intros b1 b2 -> Hb1. rewrite (split_at_delimiter BULLET b1 b2 Hb1).
    reflexivity.
Qed.

Lemma heading_with_delimiter_witness :
  Listing.address Sample.scraped = strip (lit "Fleminginkatu 5 ") /\
  Listing.rooms Sample.scraped = strip (lit " 2h+k").
Proof.
  destruct (heading_with_delimiter
              (Sample.env Sample.rooms_page) (lit "https://e.fi/9")
              Sample.rooms_page Sample.scraped
              (Sample.text_tag (lit "Fleminginkatu 5 " ++ [BULLET]
                                ++ lit " 2h+k"))
              (lit "Fleminginkatu 5 ") (lit " 2h+k")
              eq_refl eq_refl eq_refl)
    as (Ha & Hr & _).
  - cbv. intros H. repeat (destruct H as [H | H]; [discriminate |]). exact H.
  - split; [exact Ha |]. apply Hr.
    cbv. intros H. repeat (destruct H as [H | H]; [discriminate |]). exact H.
Defined.

Lemma scan_dt_area_last (pre post : list (Bs4.Tag * option Bs4.Tag))
      (dt dd : Bs4.Tag) (acc : str * str) :
  contains (lit "Asuinpinta-ala") (Bs4.get_text dt) = true ->
  (forall dt' dd', In (dt', Some dd') post ->
                   contains (lit "Asuinpinta-ala") (Bs4.get_text dt') = false) ->
  fst (fold_left scan_dt (pre ++ (dt, Some dd) :: post) acc) = Bs4.get_text dd.
Proof.
  intros Hdt Hpost. rewrite fold_left_app. cbn [fold_left].
  destruct (fold_left scan_dt pre acc) as [area floor].
  unfold scan_dt at 2. rewrite Hdt.
  now rewrite scan_dt_area.
Qed.

Lemma scan_dt_floor_last (pre post : list (Bs4.Tag * option Bs4.Tag))
      (dt dd : Bs4.Tag) (acc : str * str) :
  contains (lit "Kerros") (Bs4.get_text dt) = true ->
  (forall dt' dd', In (dt', Some dd') post ->
                   contains (lit "Kerros") (Bs4.get_text dt') = false) ->
  snd (fold_left scan_dt (pre ++ (dt, Some dd) :: post) acc) = Bs4.get_text dd.
Proof.
  intros Hdt Hpost. rewrite fold_left_app. cbn [fold_left].
  destruct (fold_left scan_dt pre acc) as [area floor].
  unfold scan_dt at 2. rewrite Hdt.
  now rewrite scan_dt_floor.
Qed.

Lemma scrape_page_fields (env : Env) (url : str) (soup : Bs4.Soup)
      (l : Listing.t) :
  scrape_page env url soup = Ok l ->
  Listing.area l = fst (fold_left scan_dt (Bs4.dts soup) ([], [])) /\
  Listing.floor l = snd (fold_left scan_dt (Bs4.dts soup) ([], [])) /\
  Listing.price l =
  match Bs4.find_span soup
          (fun t => match t with
                    | Some (c :: r) => existsb (N.eqb EURO) (c :: r)
                    | _ => false
                    end) with
  | Some t => Bs4.get_text t
  | None => []
  end.
Proof.
  rewrite scrape_page_eq.
  destruct (extract_coordinates env soup) as [coords |]; cbn [bind];
    [| discriminate].
  destruct (determine_nearest (fst coords) (snd coords)) as [target |];
    cbn [bind]; [| discriminate].
  intros [= <-]. repeat split.
Qed.

(** X10. Of several facts whose label contains the living-area mark,
    the last one that has a value gives the area, and likewise for the
    floor: a later match replaces an earlier one, and a label without
    a value is passed over. *)
Theorem last_label_wins
        (env : Env) (url : str) (soup : Bs4.Soup) (l : Listing.t)
        (pre post : list (Bs4.Tag * option Bs4.Tag)) (dt dd : Bs4.Tag) :
  scrape_page env url soup = Ok l ->
  Bs4.dts soup = pre ++ (dt, Some dd) :: post ->
  (contains (lit "Asuinpinta-ala") (Bs4.get_text dt) = true ->
   (forall dt' dd', In (dt', Some dd') post ->
                    contains (lit "Asuinpinta-ala") (Bs4.get_text dt') = false) ->
   Listing.area l = Bs4.get_text dd) /\
  (contains (lit "Kerros") (Bs4.get_text dt) = true ->
   (forall dt' dd', In (dt', Some dd') post ->
                    contains (lit "Kerros") (Bs4.get_text dt') = false) ->
   Listing.floor l = Bs4.get_text dd).
Proof.
  intros Hl Hd. destruct (scrape_page_fields env url soup l Hl) as (Ha & Hf & _).
  rewrite Ha, Hf, Hd. split; intros Hdt Hpost.
  - now apply scan_dt_area_last.
  - now apply scan_dt_floor_last.
Qed.

Lemma last_label_wins_witness :
  scrape_page (Sample.env Sample.facts_page) (lit "https://e.fi/9")
              Sample.facts_page = Ok Sample.facts_listing /\
  Listing.area Sample.facts_listing =
  Bs4.get_text (Sample.element (lit "dd") (lit "50 m2")) /\
  Listing.floor Sample.facts_listing =
  Bs4.get_text (Sample.element (lit "dd") (lit "3/5")).
Proof.
  split; [reflexivity |]. split.
  - apply (proj1 (last_label_wins
                    (Sample.env Sample.facts_page) (lit "https://e.fi/9")
                    Sample.facts_page Sample.facts_listing
                    [(Sample.element (lit "dt") (lit "Asuinpinta-ala"),
                      Some (Sample.element (lit "dd") (lit "48 m2")));
                     (Sample.element (lit "dt") (lit "Kerros"),
                      Some (Sample.element (lit "dd") (lit "3/5")))]
                    [(Sample.element (lit "dt") (lit "Kerros"), None)]
                    (Sample.element (lit "dt") (lit "Asuinpinta-ala"))
                    (Sample.element (lit "dd") (lit "50 m2"))
                    eq_refl eq_refl)).
    + reflexivity.
    + intros dt' dd' [H | []]. discriminate H.
  - apply (proj2 (last_label_wins
                    (Sample.env Sample.facts_page) (lit "https://e.fi/9")
                    Sample.facts_page Sample.facts_listing
                    [(Sample.element (lit "dt") (lit "Asuinpinta-ala"),
                      Some (Sample.element (lit "dd") (lit "48 m2")))]
                    [(Sample.element (lit "dt") (lit "Asuinpinta-ala"),
                      Some (Sample.element (lit "dd") (lit "50 m2")));
                     (Sample.element (lit "dt") (lit "Kerros"), None)]
                    (Sample.element (lit "dt") (lit "Kerros"))
                    (Sample.element (lit "dd") (lit "3/5"))
                    eq_refl eq_refl)).
    + reflexivity.
    + intros dt' dd' [[= <- <-] | [H | []]]; [reflexivity | discriminate H].
Defined.

Lemma find_first {A} (f : A -> bool) (pre post : list A) (x : A) :
  (forall y, In y pre -> f y = false) -> f x = true ->
  find f (pre ++ x :: post) = Some x.
Proof.
  induction pre as [| y pre IH]; simpl; intros Hpre Hx.
  - now rewrite Hx.
  - rewrite (Hpre y) by now left. apply IH; [| exact Hx].
    intros z Hz. apply Hpre. now right.
Qed.

Lemma existsb_In (c : N) (s : str) : In c s -> existsb (N.eqb c) s = true.
Proof.
  intros H. apply existsb_exists. exists c. split; [exact H | apply N.eqb_refl].
Qed.

(** X11. The price is the text of the first span whose string has the
    euro sign: spans before it without the sign are passed over, and
    spans after it are not looked at. *)
Theorem price_is_first_span_with_euro
        (env : Env) (url : str) (soup : Bs4.Soup) (l : Listing.t)
        (pre post : list Bs4.Tag) (t : Bs4.Tag) (s : str) :
  scrape_page env url soup = Ok l ->
  Bs4.spans soup = pre ++ t :: post ->
  (forall t' s', In t' pre -> Bs4.tag_string t' = Some s' -> ~ In EURO s') ->
  Bs4.tag_string t = Some s -> In EURO s ->
  Listing.price l = Bs4.get_text t.
Proof.
  intros Hl Hs Hpre Ht Hin.
  destruct (scrape_page_fields env url soup l Hl) as (_ & _ & Hp).
  rewrite Hp. unfold Bs4.find_span. rewrite Hs, find_first; [reflexivity | |].
  - intros t' Ht'. destruct (Bs4.tag_string t') as [[| c r] |] eqn:Es;
      try reflexivity.
    exact (existsb_not_In EURO (c :: r) (Hpre t' (c :: r) Ht' Es)).
  - rewrite Ht. destruct s as [| c r]; [destruct Hin |].
    exact (existsb_In EURO (c :: r) Hin).
Qed.

Lemma price_is_first_span_with_euro_witness :
  Listing.price Sample.facts_listing =
  Bs4.get_text (Sample.element (lit "span") (lit "450 000 " ++ [EURO])).
Proof.
  apply (price_is_first_span_with_euro
           (Sample.env Sample.facts_page) (lit "https://e.fi/9")
           Sample.facts_page Sample.facts_listing
           [Sample.element (lit "span") (lit "Myyntihinta")]
           [Sample.element (lit "span") (lit "1 200 " ++ [EURO])]
           (Sample.element (lit "span") (lit "450 000 " ++ [EURO]))
           (lit "450 000 " ++ [EURO]) eq_refl eq_refl).
  - intros t' s' [<- | []] [= <-].
    cbv. intros H. repeat (destruct H as [H | H]; [discriminate |]). exact H.
  - reflexivity.
  - apply in_or_app. right. now left.
Defined.

(** ** Effects and failures of the handlers *)

(** [scrape_listing] case by case: its result, and the world it
    leaves. *)
Lemma scrape_listing_cases (env : Env) (url : str) (w : World) :
  data_file (snd (scrape_listing env url w)) = data_file w /\
  events (snd (scrape_listing env url w)) = events w ++ [HttpGet url] /\
  match fst (scrape_listing env url w) with
  | Ok l =>
      Listing.id l = uuid4 env /\ Listing.url l = url /\
      exists soup, requests_get env url = Ok soup /\
                   scrape_page env url soup = Ok l
  | Raise e =>
      exists m,
        e = HTTPException 500 (lit "Scraping failed: " ++ m) /\
        (requests_get env url = Raise m \/
         exists soup, requests_get env url = Ok soup /\
                      scrape_page env url soup = Raise m)
  end.
Proof.
  unfold scrape_listing.
  destruct (requests_get env url) as [soup | m] eqn:Hget; cbn [bind].
  - destruct (scrape_page env url soup) as [l | m] eqn:Hpage; cbn [fst snd].
    + split; [reflexivity |]. split; [reflexivity |].
      pose proof Hpage as Hsame.
      rewrite scrape_page_eq in Hpage.
      destruct (extract_coordinates env soup) as [coords |]; cbn [bind] in Hpage;
        [| discriminate].
      destruct (determine_nearest (fst coords) (snd coords)) as [target |];
        cbn [bind] in Hpage; [| discriminate].
      injection Hpage as Hl. rewrite <- Hl at 1 2. cbn [Listing.id Listing.url].
      split; [reflexivity |]. split; [reflexivity |].
      exists soup. split; [reflexivity | exact Hsame].
    + split; [reflexivity |]. split; [reflexivity |].
      exists m. split; [reflexivity |]. right. now exists soup.
  - cbn [fst snd]. split; [reflexivity |]. split; [reflexivity |].
    exists m. split; [reflexivity |]. now left.
Qed.

Lemma load_data_file (w1 w2 : World) :
  data_file w1 = data_file w2 -> load_data w1 = load_data w2.
Proof. unfold load_data. now intros ->. Qed.

Lemma load_data_saved (w : World) (ls : list Listing.t) :
  data_file w = Json (JArr (map Listing_dict ls)) -> load_data w = Ok ls.
Proof.
  intros H. unfold load_data. rewrite H. cbn [iter bind].
  apply mapM_validate_dict.
Qed.

Lemma not_existsb_url (u : str) (ls : list Listing.t) :
  existsb (fun l => str_eqb (Listing.url l) u) ls = false ->
  forall l, In l ls -> Listing.url l <> u.
Proof.
  intros H l Hin Hu.
  assert (Ht : existsb (fun l => str_eqb (Listing.url l) u) ls = true)
    by (apply existsb_url; eauto).
  congruence.
Qed.

(** [add_listing] case by case. *)
Lemma add_listing_cases (env : Env) (input : URLInput.t) (w : World) :
  (exists e, load_data w = Raise e /\
             add_listing env input w = (Raise (Unhandled e), w)) \/
  (exists ls, load_data w = Ok ls /\
              (exists l, In l ls /\ Listing.url l = URLInput.url input) /\
              add_listing env input w =
              (Raise (HTTPException 400
                        (lit "Listing with this URL already exists.")), w)) \/
  (exists ls detail w',
      load_data w = Ok ls /\
      (forall l, In l ls -> Listing.url l <> URLInput.url input) /\
      add_listing env input w = (Raise (HTTPException 500 detail), w') /\
      data_file w' = data_file w /\
      events w' = events w ++ [HttpGet (URLInput.url input)]) \/
  (exists ls l w',
      load_data w = Ok ls /\
      (forall l, In l ls -> Listing.url l <> URLInput.url input) /\
      add_listing env input w = (Ok l, w') /\
      Listing.id l = uuid4 env /\ Listing.url l = URLInput.url input /\
      data_file w' = Json (JArr (map Listing_dict (ls ++ [l]))) /\
      events w' = events w ++ [HttpGet (URLInput.url input);
                               FileWrite (JArr (map Listing_dict (ls ++ [l])))]).
Proof.
  unfold add_listing.
  destruct (load_data w) as [ls | e] eqn:Hload; [| left; now exists e].
  right. destruct (existsb _ ls) eqn:Ex.
  { left. exists ls. split; [reflexivity |].
    split; [now apply existsb_url | reflexivity]. }
  right. pose proof (not_existsb_url _ _ Ex) as Hnew.
  pose proof (scrape_listing_cases env (URLInput.url input) w)
    as (Hfile & Hev & Hres).
  destruct (scrape_listing env (URLInput.url input) w) as [[l | e] w1];
    cbn [fst snd] in *.
  - right. destruct Hres as (Hid & Hurl & _).
    exists ls, l, (save_data (ls ++ [l]) w1).
    split; [reflexivity |]. split; [exact Hnew |]. split; [reflexivity |].
    split; [exact Hid |]. split; [exact Hurl |]. split; [reflexivity |].
    cbn [save_data events]. rewrite Hev, <- app_assoc. reflexivity.
  - left. destruct Hres as (m & -> & _).
    exists ls, (lit "Scraping failed: " ++ m), w1.
    split; [reflexivity |]. split; [exact Hnew |]. now repeat split.
Qed.

(** X12. [scrape_listing] fetches the URL once and never touches the
    file.  What it returns has the generated id and the URL it was
    given; what it raises is always status 500, the detail being the
    message of the failed fetch or of the failed extraction after the
    words [Scraping failed: ]. *)
Theorem scrape_listing_effects (env : Env) (url : str) (w : World) :
  data_file (snd (scrape_listing env url w)) = data_file w /\
  events (snd (scrape_listing env url w)) = events w ++ [HttpGet url] /\
  match fst (scrape_listing env url w) with
  | Ok l =>
      Listing.id l = uuid4 env /\ Listing.url l = url /\
      exists soup, requests_get env url = Ok soup /\
                   scrape_page env url soup = Ok l
  | Raise e =>
      exists m,
        e = HTTPException 500 (lit "Scraping failed: " ++ m) /\
        (requests_get env url = Raise m \/
         exists soup, requests_get env url = Ok soup /\
                      scrape_page env url soup = Raise m)
  end.
Proof. apply scrape_listing_cases. Qed.

(** X13. Every add request ends in one of four ways: the store cannot
    be loaded (the exception leaves the handler, nothing is fetched or
    written); the URL is stored already (status 400, nothing fetched
    or written); scraping fails (status 500 after one fetch, nothing
    written); or the listing is appended, one fetch and then one write
    of the whole collection having taken place. *)
Theorem add_listing_outcomes (env : Env) (input : URLInput.t) (w : World) :
  (exists e, load_data w = Raise e /\
             add_listing env input w = (Raise (Unhandled e), w)) \/
  (exists ls, load_data w = Ok ls /\
              (exists l, In l ls /\ Listing.url l = URLInput.url input) /\
              add_listing env input w =
              (Raise (HTTPException 400
                        (lit "Listing with this URL already exists.")), w)) \/
  (exists ls detail w',
      load_data w = Ok ls /\
      (forall l, In l ls -> Listing.url l <> URLInput.url input) /\
      add_listing env input w = (Raise (HTTPException 500 detail), w') /\
      data_file w' = data_file w /\
      events w' = events w ++ [HttpGet (URLInput.url input)]) \/
  (exists ls l w',
      load_data w = Ok ls /\
      (forall l, In l ls -> Listing.url l <> URLInput.url input) /\
      add_listing env input w = (Ok l, w') /\
      Listing.id l = uuid4 env /\ Listing.url l = URLInput.url input /\
      data_file w' = Json (JArr (map Listing_dict (ls ++ [l]))) /\
      events w' = events w ++ [HttpGet (URLInput.url input);
                               FileWrite (JArr (map Listing_dict (ls ++ [l])))]).
Proof. apply add_listing_cases. Qed.

(** X14. A request that fails changes nothing in the file and writes
    nothing: a failed add leaves at most the trace of its one fetch,
    a failed delete and any listing request leave the world as it was.
    A handler raises only its own status (400 or 500 for add, 404 for
    delete) or passes on the exception of a store that does not load. *)
Theorem failed_request_keeps_store :
  (forall env input w e w',
      add_listing env input w = (Raise e, w') ->
      data_file w' = data_file w /\
      (events w' = events w \/
       events w' = events w ++ [HttpGet (URLInput.url input)]) /\
      ((exists m, e = Unhandled m /\ load_data w = Raise m) \/
       (exists detail, e = HTTPException 400 detail) \/
       (exists detail, e = HTTPException 500 detail))) /\
  (forall listing_id w e w',
      delete_listing listing_id w = (Raise e, w') ->
      w' = w /\
      ((exists m, e = Unhandled m /\ load_data w = Raise m) \/
       e = HTTPException 404 (lit "Listing not found"))) /\
  (forall w, snd (get_listings w) = w).
Proof.
  split; [| split].
  - intros env input w e w' H.
    destruct (add_listing_cases env input w)
      as [(m & Hl & E) | [(ls & Hl & _ & E) | [(ls & d & w1 & Hl & _ & E & Hf & He)
                                              | (ls & l & w1 & _ & _ & E & _)]]];
      rewrite E in H; [| | | discriminate].
    + injection H as <- <-. split; [reflexivity |]. split; [now left |].
      left. now exists m.
    + injection H as <- <-. split; [reflexivity |]. split; [now left |].
      right. left. eauto.
    + injection H as <- <-. split; [exact Hf |]. split; [now right |].
      right. right. eauto.
  - intros listing_id w e w'. unfold delete_listing.
    destruct (load_data w) as [data | m].
    + destruct (_ =? _)%nat; [| discriminate].
      intros [= <- <-]. split; [reflexivity | now right].
    + intros [= <- <-]. split; [reflexivity |]. left. now exists m.
  - intros w. unfold get_listings. now destruct (load_data w).
Qed.

(** ** Invariants of the stored collection *)

(** Taking records out keeps their keys pairwise different. *)
Lemma filter_keeps_distinct {A B} (key : A -> B) (keep : A -> bool)
      (xs : list A) (Hdistinct : NoDup (map key xs)) :
  NoDup (map key (filter keep xs)).
Proof.
  revert Hdistinct. induction xs as [| x xs IH]; simpl; intros H.
  - constructor.
  - inversion H as [| ? ? Hfresh Hrest]; subst.
    destruct (keep x); simpl; [| now apply IH].
    constructor; [| now apply IH].
    intros Hin. apply Hfresh. apply in_map_iff in Hin.
    destruct Hin as [y [Hy Hin]]. apply filter_In in Hin.
    apply in_map_iff. exists y. tauto.
Qed.

(** X15. The URLs of the stored listings stay pairwise different
    under add requests: whatever the outcome of the request, the
    store loads afterwards and no two of its listings share a URL. *)
Theorem add_listing_keeps_urls_unique
        (env : Env) (input : URLInput.t) (w w' : World)
        (ls : list Listing.t) (r : outcome exn Listing.t) :
  load_data w = Ok ls ->
  NoDup (map Listing.url ls) ->
  add_listing env input w = (r, w') ->
  exists ls', load_data w' = Ok ls' /\ NoDup (map Listing.url ls').
Proof.
  intros Hload Hnd H.
  destruct (add_listing_cases env input w)
    as [(m & Hl & _) | [(ls0 & _ & _ & E) | [(ls0 & d & w1 & _ & _ & E & Hf & _)
                                            | (ls0 & l & w1 & Hl & Hnew & E & _
                                               & Hurl & Hf & _)]]].
  - congruence.
  - rewrite E in H. injection H as _ <-. now exists ls.
  - rewrite E in H. injection H as _ <-. exists ls.
    split; [| exact Hnd]. now rewrite (load_data_file w1 w Hf).
  - rewrite E in H. injection H as _ <-.
    assert (ls0 = ls) by congruence. subst ls0.
    exists (ls ++ [l]). split; [now apply load_data_saved |].
    rewrite map_app. simpl. apply NoDup_app; [exact Hnd | | ].
    + constructor; [intros [] | constructor].
    + intros u Hin [<- | []]. apply in_map_iff in Hin.
      destruct Hin as [x [Hx Hin]]. apply (Hnew x Hin). congruence.
Qed.

Lemma add_listing_keeps_urls_unique_witness :
  NoDup (map Listing.url [Sample.first; Sample.second]) /\
  exists ls',
    load_data
      (snd (add_listing (Sample.env Sample.rooms_page)
                        {| URLInput.url := lit "https://e.fi/9" |}
                        (Sample.stored [Sample.first; Sample.second]))) =
    Ok ls' /\ NoDup (map Listing.url ls').
Proof.
  assert (Hnd : NoDup (map Listing.url [Sample.first; Sample.second])).
  { repeat constructor; simpl; intros H;
      repeat (destruct H as [H | H]; [discriminate |]); exact H. }
  split; [exact Hnd |].
  apply (add_listing_keeps_urls_unique
           (Sample.env Sample.rooms_page)
           {| URLInput.url := lit "https://e.fi/9" |}
           (Sample.stored [Sample.first; Sample.second]) _
           [Sample.first; Sample.second]
           (fst (add_listing (Sample.env Sample.rooms_page)
                             {| URLInput.url := lit "https://e.fi/9" |}
                             (Sample.stored [Sample.first; Sample.second])))
           eq_refl Hnd).
  apply surjective_pairing.
Defined.

(** X16. A delete request keeps the stored collection a part of what
    it was, with no record added or altered: whatever the outcome,
    the store loads afterwards, every listing in it was in it before,
    and listings that had pairwise different URLs (or ids) still
    have. *)
Theorem delete_listing_keeps_invariants
        (listing_id : str) (w w' : World) (ls : list Listing.t)
        (r : outcome exn (list Listing.t)) :
  load_data w = Ok ls ->
  delete_listing listing_id w = (r, w') ->
  exists ls',
    load_data w' = Ok ls' /\
    (forall l, In l ls' -> In l ls) /\
    (length ls' <= length ls)%nat /\
    (NoDup (map Listing.url ls) -> NoDup (map Listing.url ls')) /\
    (NoDup (map Listing.id ls) -> NoDup (map Listing.id ls')).
Proof.
  intros Hload. unfold delete_listing. rewrite Hload.
  destruct (_ =? _)%nat; intros [= _ <-].
  - exists ls. split; [exact Hload |]. repeat split; auto.
  - eexists. split; [apply load_save |]. split; [| split; [| split]].
    + intros l Hin. apply filter_In in Hin. tauto.
    + apply filter_length_le.
    + apply filter_keeps_distinct.
    + apply filter_keeps_distinct.
Qed.

Lemma delete_listing_keeps_invariants_witness :
  exists ls',
    load_data
      (snd (delete_listing (lit "id-1")
              (Sample.stored [Sample.first; Sample.second; Sample.twin]))) =
    Ok ls' /\
    (forall l, In l ls' -> In l [Sample.first; Sample.second; Sample.twin]).
Proof.
  destruct (delete_listing_keeps_invariants
              (lit "id-1")
              (Sample.stored [Sample.first; Sample.second; Sample.twin]) _
              [Sample.first; Sample.second; Sample.twin]
              (fst (delete_listing (lit "id-1")
                      (Sample.stored [Sample.first; Sample.second; Sample.twin])))
              eq_refl (surjective_pairing _))
    as (ls' & Hl & Hin & _).
  exists ls'. split; [exact Hl | exact Hin].
Defined.

(** ** How requests compose *)

(** X17. After an add request has succeeded, the same request is
    refused with status 400 whatever the page then holds, and the
    listing request returns the collection with the new record last. *)
Theorem add_listing_twice
        (env env' : Env) (input : URLInput.t) (w w' : World)
        (ls : list Listing.t) (l : Listing.t) :
  load_data w = Ok ls ->
  add_listing env input w = (Ok l, w') ->
  add_listing env' input w' =
  (Raise (HTTPException 400 (lit "Listing with this URL already exists.")), w')
  /\ get_listings w' = (Ok (ls ++ [l]), w').
Proof.
  intros Hload H.
  destruct (add_listing_cases env input w)
    as [(m & Hl & _) | [(ls0 & _ & _ & E) | [(ls0 & d & w1 & _ & _ & E & _)
                                            | (ls0 & l0 & w1 & Hl & _ & E & _
                                               & Hurl & Hf & _)]]];
    try congruence.
  rewrite E in H. injection H as <- <-.
  assert (ls0 = ls) by congruence. subst ls0.
  pose proof (load_data_saved w1 (ls ++ [l0]) Hf) as Hl1.
  split.
  - unfold add_listing. rewrite Hl1.
    assert (Hex : existsb (fun x => str_eqb (Listing.url x) (URLInput.url input))
                    (ls ++ [l0]) = true).
    { apply existsb_url. exists l0. split; [| exact Hurl].
      apply in_or_app. right. now left. }
    now rewrite Hex.
  - unfold get_listings. now rewrite Hl1.
Qed.

Lemma add_listing_twice_witness :
  add_listing (Sample.env Sample.kallio_page)
    {| URLInput.url := lit "https://e.fi/9" |}
    (snd (add_listing (Sample.env Sample.rooms_page)
            {| URLInput.url := lit "https://e.fi/9" |}
            (Sample.stored [Sample.first; Sample.second]))) =
  (Raise (HTTPException 400 (lit "Listing with this URL already exists.")),
   snd (add_listing (Sample.env Sample.rooms_page)
          {| URLInput.url := lit "https://e.fi/9" |}
          (Sample.stored [Sample.first; Sample.second]))).
Proof.
  apply (add_listing_twice
           (Sample.env Sample.rooms_page) (Sample.env Sample.kallio_page)
           {| URLInput.url := lit "https://e.fi/9" |}
           (Sample.stored [Sample.first; Sample.second])
           (snd (add_listing (Sample.env Sample.rooms_page)
                   {| URLInput.url := lit "https://e.fi/9" |}
                   (Sample.stored [Sample.first; Sample.second])))
           [Sample.first; Sample.second] Sample.scraped eq_refl).
  reflexivity.
Defined.

(** X18. After a delete request has succeeded, the same request is
    answered with status 404 and changes nothing, and the listing
    request returns the remaining records. *)
Theorem delete_listing_twice
        (listing_id : str) (w w' : World) (rest : list Listing.t) :
  delete_listing listing_id w = (Ok rest, w') ->
  delete_listing listing_id w' =
  (Raise (HTTPException 404 (lit "Listing not found")), w') /\
  get_listings w' = (Ok rest, w').
Proof.
  unfold delete_listing at 1.
  destruct (load_data w) as [data | e]; [| discriminate].
  destruct (_ =? _)%nat; [discriminate |]. intros [= <- <-].
  set (keep := fun l => negb (str_eqb (Listing.id l) listing_id)).
  split.
  - unfold delete_listing. rewrite load_save. fold keep.
    rewrite (filter_all keep (filter keep data)).
    + now rewrite Nat.eqb_refl.
    + intros x Hx. apply filter_In in Hx. tauto.
  - unfold get_listings. now rewrite load_save.
Qed.

Lemma delete_listing_twice_witness :
  delete_listing (lit "id-1")
    (save_data [Sample.second]
       (Sample.stored [Sample.first; Sample.second; Sample.twin])) =
  (Raise (HTTPException 404 (lit "Listing not found")),
   save_data [Sample.second]
     (Sample.stored [Sample.first; Sample.second; Sample.twin])).
Proof.
  apply (delete_listing_twice
           (lit "id-1")
           (Sample.stored [Sample.first; Sample.second; Sample.twin])
           (save_data [Sample.second]
              (Sample.stored [Sample.first; Sample.second; Sample.twin]))
           [Sample.second]).
  reflexivity.
Defined.

(** X19. Adding a listing and then deleting it by its id gives back
    the collection as it was, provided no stored listing already had
    the generated id. *)
Theorem add_then_delete
        (env : Env) (input : URLInput.t) (w w' : World)
        (ls : list Listing.t) (l : Listing.t) :
  load_data w = Ok ls ->
  (forall x, In x ls -> Listing.id x <> uuid4 env) ->
  add_listing env input w = (Ok l, w') ->
  exists w'',
    delete_listing (Listing.id l) w' = (Ok ls, w'') /\
    get_listings w'' = (Ok ls, w'').
Proof.
  intros Hload Hids H.
  destruct (add_listing_cases env input w)
    as [(m & Hl & _) | [(ls0 & _ & _ & E) | [(ls0 & d & w1 & _ & _ & E & _)
                                            | (ls0 & l0 & w1 & Hl & _ & E & Hid
                                               & _ & Hf & _)]]];
    try congruence.
  rewrite E in H. injection H as <- <-.
  assert (ls0 = ls) by congruence. subst ls0.
  pose proof (load_data_saved w1 (ls ++ [l0]) Hf) as Hl1.
  set (keep := fun x => negb (str_eqb (Listing.id x) (Listing.id l0))).
  assert (Hfilter : filter keep (ls ++ [l0]) = ls).
  { rewrite filter_app. simpl. unfold keep at 2. rewrite str_eqb_refl. simpl.
    rewrite app_nil_r. apply filter_all. intros x Hx. unfold keep.
    apply negb_true_iff, str_eqb_neq. rewrite Hid. now apply Hids. }
  exists (save_data ls w1). split.
  - unfold delete_listing. rewrite Hl1. fold keep. rewrite Hfilter.
    rewrite length_app. simpl.
    destruct (Nat.eqb_spec (length ls) (length ls + 1)); [lia | reflexivity].
  - unfold get_listings. now rewrite load_save.
Qed.

Lemma add_then_delete_witness :
  exists w'',
    delete_listing (Listing.id Sample.scraped)
      (snd (add_listing (Sample.env Sample.rooms_page)
              {| URLInput.url := lit "https://e.fi/9" |}
              (Sample.stored [Sample.first; Sample.second]))) =
    (Ok [Sample.first; Sample.second], w'').
Proof.
  destruct (add_then_delete
              (Sample.env Sample.rooms_page)
              {| URLInput.url := lit "https://e.fi/9" |}
              (Sample.stored [Sample.first; Sample.second])
              (snd (add_listing (Sample.env Sample.rooms_page)
                      {| URLInput.url := lit "https://e.fi/9" |}
                      (Sample.stored [Sample.first; Sample.second])))
              [Sample.first; Sample.second] Sample.scraped eq_refl)
    as (w'' & Hd & _).
  - intros x [<- | [<- | []]]; discriminate.
  - reflexivity.
  - now exists w''.
Defined.

(** ** Loading the store *)

Lemma mapM_nil {E A B} (f : A -> outcome E B) (l : list A) :
  mapM f l = Ok [] -> l = [].
Proof.
  destruct l as [| x l]; [reflexivity |]. simpl.
  destruct (f x); [| discriminate]. cbn [bind].
  destruct (mapM f l); discriminate.
Qed.

(** X20. The store loads as the empty collection exactly when the file
    is absent or holds an empty JSON array, an empty JSON object or an
    empty JSON string; every other content either gives records or
    makes the load fail. *)
Theorem load_data_empty (w : World) :
  load_data w = Ok [] <->
  data_file w = NoFile \/ data_file w = Json (JArr []) \/
  data_file w = Json (JObj []) \/ data_file w = Json (JStr []).
Proof.
  unfold load_data. split.
  - destruct (data_file w) as [| data |]; [now left | | discriminate].
    destruct data as [| b | x | s | items | members]; cbn [iter bind];
      try discriminate; intros H; apply mapM_nil in H.
    + apply map_eq_nil in H. subst. right; right; right; reflexivity.
    + subst. right; left; reflexivity.
    + apply map_eq_nil in H. subst. right; right; left; reflexivity.

  - intros [-> | [-> | [-> | ->]]]; reflexivity.
Qed.

Lemma mapM_Forall2 {E A B} (f : A -> outcome E B) (l : list A) (r : list B) :
  mapM f l = Ok r <-> Forall2 (fun x y => f x = Ok y) l r.
Proof.
  revert r. induction l as [| x l IH]; intros r; simpl.
  - split; [intros [= <-]; constructor | intros H; now inversion H].
  - split.
    + destruct (f x) as [y |] eqn:Ex; cbn [bind]; [| discriminate].
      destruct (mapM f l) as [ys |] eqn:El; cbn [bind]; [| discriminate].
      intros [= <-]. constructor; [exact Ex | now apply IH].
    + intros H. inversion H as [| ? y ? ys Hx Hl]; subst.
      rewrite Hx. cbn [bind]. apply IH in Hl. now rewrite Hl.
Qed.

Lemma mapM_raise {E A B} (f : A -> outcome E B) (l : list A) (x : A) (e : E) :
  In x l -> f x = Raise e -> exists e', mapM f l = Raise e'.
Proof.
  induction l as [| y l IH]; simpl; [tauto |].
  intros [-> | Hin] Hx.
  - rewrite Hx. cbn [bind]. eexists; reflexivity.
  - destruct (f y); cbn [bind]; [| eexists; reflexivity].
    destruct (IH Hin Hx) as [e' ->]. cbn [bind]. eexists; reflexivity.
Qed.

(** X21. A stored array loads record by record, in order, each item
    validated on its own: the load returns a list exactly when every
    item validates, to the record at the same position.  A single
    item that fails validation makes the whole load fail, and then
    every request (list, add, delete) is answered with that exception
    and changes nothing: no fetch, no write. *)
Theorem bad_record_blocks_requests (w : World) (items : list json) :
  data_file w = Json (JArr items) ->
  (forall ls, load_data w = Ok ls <->
              Forall2 (fun i l => Listing_validate i = Ok l) items ls) /\
  (forall item e,
      In item items ->
      Listing_validate item = Raise e ->
      exists e',
        load_data w = Raise e' /\
        get_listings w = (Raise (Unhandled e'), w) /\
        (forall env input,
            add_listing env input w = (Raise (Unhandled e'), w)) /\
        (forall listing_id,
            delete_listing listing_id w = (Raise (Unhandled e'), w))).
Proof.
  intros Hfile.
  assert (Hload : load_data w = mapM Listing_validate items)
    by (unfold load_data; now rewrite Hfile).
  split.
  - intros ls. rewrite Hload. apply mapM_Forall2.
  - intros item e Hin Hbad.
    destruct (mapM_raise Listing_validate items item e Hin Hbad) as [e' He'].
    exists e'. rewrite <- Hload in He'.
    split; [exact He' |].
    unfold get_listings, add_listing, delete_listing. rewrite He'.
    repeat split.
Qed.

Lemma bad_record_blocks_requests_witness :
  (load_data (Sample.stored [Sample.first; Sample.second]) =
   Ok [Sample.first; Sample.second] <->
   Forall2 (fun i l => Listing_validate i = Ok l)
           (map Listing_dict [Sample.first; Sample.second])
           [Sample.first; Sample.second]) /\
  load_data (Sample.stored [Sample.first; Sample.second]) =
  Ok [Sample.first; Sample.second] /\
  exists e',
    load_data Sample.broken_store = Raise e' /\
    get_listings Sample.broken_store =
    (Raise (Unhandled e'), Sample.broken_store).
Proof.
  split; [| split].
  - exact (proj1 (bad_record_blocks_requests
                    (Sample.stored [Sample.first; Sample.second])
                    (map Listing_dict [Sample.first; Sample.second]) eq_refl)
             [Sample.first; Sample.second]).
  - reflexivity.
  - destruct (proj2 (bad_record_blocks_requests
                       Sample.broken_store
                       [Listing_dict Sample.first;
                        JObj [(lit "id", JStr (lit "id-2"))]] eq_refl)
                (JObj [(lit "id", JStr (lit "id-2"))])
                (validation_error (lit "url")))
      as (e' & Hl & Hg & _).
    + right. now left.
    + reflexivity.
    + exists e'. split; [exact Hl | exact Hg].
Defined.

(** X22. An item of the stored array needs the keys [id] and [url]
    with strings as values: without either it is rejected.  With both,
    and with none of the other fields present, it loads with every
    other field at its declared default, keys that are no fields
    being ignored. *)
Theorem Listing_validate_required_and_defaults (kv : dict json) :
  (dict_get kv (lit "id") = None \/ dict_get kv (lit "url") = None ->
   exists e, Listing_validate (JObj kv) = Raise e) /\
  (forall i u,
      dict_get kv (lit "id") = Some (JStr i) ->
      dict_get kv (lit "url") = Some (JStr u) ->
      (forall k, In k [lit "address"; lit "price"; lit "area"; lit "floor";
                       lit "rooms"; lit "description"; lit "image_urls";
                       lit "latitude"; lit "longitude"; lit "nearest_target";
                       lit "distance_to_target_km"] ->
                 dict_get kv k = None) ->
      Listing_validate (JObj kv) =
      Ok {| Listing.id := i; Listing.url := u; Listing.address := [];
            Listing.price := []; Listing.area := []; Listing.floor := [];
            Listing.rooms := []; Listing.description := [];
            Listing.image_urls := []; Listing.latitude := None;
            Listing.longitude := None; Listing.nearest_target := [];
            Listing.distance_to_target_km := None |}).
Proof.
  split.
  - unfold Listing_validate, field_str. intros [H | H].
    + rewrite H. cbn [bind]. eexists; reflexivity.
    + destruct (dict_get kv (lit "id")) as [[| | | s | |] |]; cbn [bind];
        try (eexists; reflexivity).
      rewrite H. cbn [bind]. eexists; reflexivity.
  - intros i u Hi Hu Hno.
    unfold Listing_validate, field_str, field_list_str, field_float.
    rewrite Hi, Hu.
    rewrite !Hno by (simpl; tauto). reflexivity.
Qed.

Lemma Listing_validate_required_and_defaults_witness :
  Listing_validate
    (JObj [(lit "id", JStr (lit "id-1")); (lit "note", JBool true);
           (lit "url", JStr (lit "https://e.fi/1"))]) =
  Ok Sample.first /\
  exists e, Listing_validate (JObj [(lit "id", JStr (lit "id-2"))]) = Raise e.
Proof.
  split.
  - apply (proj2 (Listing_validate_required_and_defaults
                    [(lit "id", JStr (lit "id-1")); (lit "note", JBool true);
                     (lit "url", JStr (lit "https://e.fi/1"))])
             (lit "id-1") (lit "https://e.fi/1") eq_refl eq_refl).
    intros k Hk. simpl in Hk.
    repeat (destruct Hk as [<- | Hk]; [reflexivity |]). destruct Hk.
  - apply (proj1 (Listing_validate_required_and_defaults
                    [(lit "id", JStr (lit "id-2"))])).
    right. reflexivity.
Defined.

(** ** Images *)

(** X23. The image URLs of a scraped listing are the [data-big]
    values of the images that have the attribute, one for each and in
    the order of the page; an image without it is passed over. *)
Theorem image_urls_in_page_order
        (env : Env) (url : str) (soup : Bs4.Soup) (l : Listing.t) :
  scrape_page env url soup = Ok l ->
  Forall2 (fun img v => dict_get (Bs4.attrs img) (lit "data-big") = Some v)
          (filter (fun img => Bs4.has_attr img (lit "data-big"))
                  (Bs4.imgs soup))
          (Listing.image_urls l).
Proof.
  rewrite scrape_page_eq.
  destruct (extract_coordinates env soup) as [coords |]; cbn [bind];
    [| discriminate].
  destruct (determine_nearest (fst coords) (snd coords)) as [target |];
    cbn [bind]; [| discriminate].
  intros [= <-]. cbn [Listing.image_urls].
  induction (Bs4.imgs soup) as [| img imgs IH]; simpl; [constructor |].
  unfold Bs4.has_attr at 1.
  destruct (dict_get (Bs4.attrs img) (lit "data-big")) as [v |] eqn:E; simpl.
  - constructor; [exact E | exact IH].
  - exact IH.
Qed.

Lemma image_urls_in_page_order_witness :
  scrape_page (Sample.env Sample.gallery_page) (lit "https://e.fi/9")
              Sample.gallery_page = Ok Sample.gallery_listing /\
  Forall2 (fun img v => dict_get (Bs4.attrs img) (lit "data-big") = Some v)
          [Sample.img [(lit "src", lit "a.jpg"); (lit "data-big", lit "A.jpg")];
           Sample.img [(lit "data-big", lit "C.jpg")]]
          [lit "A.jpg"; lit "C.jpg"].
Proof.
  split; [reflexivity |].
  exact (image_urls_in_page_order
           (Sample.env Sample.gallery_page) (lit "https://e.fi/9")
           Sample.gallery_page Sample.gallery_listing eq_refl).
Defined.
